(** * pxp-agent: the Request Processor and its collaborators

    A shallow embedding of
      - lib/src/action_response.cc   (ActionResponse)
      - lib/src/request_processor.cc (ResultsStorage, nonBlockingActionTask,
                                      RequestProcessor)
      - lib/src/modules/ping.cc      (Ping)
      - lib/inc/cthun-agent/action_request.hpp (ActionRequest, declarations)
    followed by the properties of the specification that are stated about
    them, and by further properties of the same code: the setters and
    readers of ActionResponse, Results Storage, the other paths of the
    task, validation and dispatch, and the loading of the modules.

    C++ exceptions are values of [exn]; a function that may throw returns
    a [result].  Code that acts on the connector, the spool directory, the
    results-mutex table or its own local variables is written in a small
    state-and-exception monad [M]; every effect is also appended to a trace
    of [event]s, so that orderings can be stated.  What lives outside the
    repository (the JSON container, the schema validator, the connector,
    the file system, the thread library) is modelled by its documented
    contract, and where it may fail the failure is chosen by an [Env]. *)

From Stdlib Require Import ZArith Bool Ascii String.
From stdpp Require Import base option list strings pretty gmap.

Local Open Scope Z_scope.
Local Open Scope string_scope.
Local Open Scope list_scope.

(* ================================================================= *)
(** * Exceptions and results *)

Inductive exn : Type :=
  (* leatherman::json_container *)
  | data_parse_error (what : string)
  | data_key_error (what : string)
  | data_type_error (what : string)
  (* PCPClient *)
  | validation_error (what : string)
  | schema_not_found_error (what : string)
  | connection_error (what : string)
  (* the agent's own *)
  | ActionRequest_Error (what : string)      (* request_format_error *)
  | ActionResponse_Error (what : string)
  | RequestProcessor_Error (what : string)
  | request_processing_error (what : string)
  | Module_ProcessingError (what : string)
  | ResultsStorage_Error (what : string)
  | ResultsMutex_Error (what : string)
  (* std, boost *)
  | out_of_range (what : string)
  | filesystem_error (what : string)
  | std_exception (what : string).

Definition what (e : exn) : string :=
  match e with
  | data_parse_error w | data_key_error w | data_type_error w
  | validation_error w | schema_not_found_error w | connection_error w
  | ActionRequest_Error w | ActionResponse_Error w
  | RequestProcessor_Error w | request_processing_error w
  | Module_ProcessingError w | ResultsStorage_Error w
  | ResultsMutex_Error w | out_of_range w | filesystem_error w
  | std_exception w => w
  end.

Inductive result (A : Type) : Type :=
  | Return (a : A)
  | Throw (e : exn).
Arguments Return {A} a.
Arguments Throw {A} e.

#[global] Instance result_ret : MRet result := fun _ a => Return a.
#[global] Instance result_bind : MBind result := fun _ _ k r =>
  match r with
  | Return a => k a
  | Throw e => Throw e
  end.

(** [std::string::empty()] *)
Definition empty (s : string) : bool :=
  match s with
  | EmptyString => true
  | String _ _ => false
  end.

(** [boost::filesystem::path::operator/] on POSIX paths, as strings: the
    second path is appended to the first, after a separator unless the
    first is empty or ends with one, or the second starts with one;
    appending the empty path changes nothing. *)
Definition ends_with_separator (p : string) : bool :=
  match String.get (String.length p - 1) p with
  | Some c => Ascii.eqb c "/"
  | None => false
  end.

Definition starts_with_separator (p : string) : bool :=
  match p with
  | String c _ => Ascii.eqb c "/"
  | EmptyString => false
  end.

Definition path_append (p q : string) : string :=
  if empty q then p
  else if starts_with_separator q then p +:+ q
  else if negb (empty p) && negb (ends_with_separator p)
       then p +:+ "/" +:+ q
       else p +:+ q.

(* ================================================================= *)
(** * JSON containers *)

Module lth_jc.

#[local] Unset Elimination Schemes.
Inductive json : Type :=
  | JNull
  | JBool (b : bool)
  | JInt (z : Z)
  | JString (s : string)
  | JArray (items : list json)
  | JObject (members : list (string * json)).
#[local] Set Elimination Schemes.

(** A [JsonContainer] as the agent uses it: a document whose root is an
    object, the members kept in insertion order.  A default-constructed
    container is the empty object. *)
Definition JsonContainer : Type := list (string * json).

Definition empty_object : JsonContainer := [].

Fixpoint lookup_member (key : string) (c : JsonContainer) : option json :=
  match c with
  | [] => None
  | (k, v) :: rest =>
      if String.eqb k key then Some v else lookup_member key rest
  end.

Definition includes (c : JsonContainer) (key : string) : bool :=
  match lookup_member key c with
  | Some _ => true
  | None => false
  end.

Definition keys (c : JsonContainer) : list string := map fst c.

(** [set<T>(key, value)]: the entry is overwritten where it stands, or
    appended when the key is new. *)
Fixpoint set (c : JsonContainer) (key : string) (v : json) : JsonContainer :=
  match c with
  | [] => [(key, v)]
  | (k, x) :: rest =>
      if String.eqb k key then (k, v) :: rest else (k, x) :: set rest key v
  end.

(** [get<T>(key)]: [data_key_error] for an unknown key, [data_type_error]
    when the entry is not a [T]. *)
Definition get_entry (c : JsonContainer) (key : string) : result json :=
  match lookup_member key c with
  | Some v => Return v
  | None => Throw (data_key_error ("unknown object entry with key: " +:+ key))
  end.

Definition get_string (c : JsonContainer) (key : string) : result string :=
  v ← get_entry c key;
  match v with
  | JString s => Return s
  | _ => Throw (data_type_error "not a string")
  end.

Definition get_bool (c : JsonContainer) (key : string) : result bool :=
  v ← get_entry c key;
  match v with
  | JBool b => Return b
  | _ => Throw (data_type_error "not a boolean")
  end.

Definition get_int (c : JsonContainer) (key : string) : result Z :=
  v ← get_entry c key;
  match v with
  | JInt z => Return z
  | _ => Throw (data_type_error "not an integer")
  end.

(** [get<JsonContainer>(key)] hands back the entry whatever its type. *)
Definition get_container (c : JsonContainer) (key : string) : result json :=
  get_entry c key.

Fixpoint as_objects (items : list json) : result (list JsonContainer) :=
  match items with
  | [] => Return []
  | JObject ms :: rest => tl ← as_objects rest; Return (ms :: tl)
  | _ :: _ => Throw (data_type_error "not an object")
  end.

(** [get<std::vector<JsonContainer>>(key)] *)
Definition get_vector (c : JsonContainer) (key : string)
  : result (list JsonContainer) :=
  v ← get_entry c key;
  match v with
  | JArray items => as_objects items
  | _ => Throw (data_type_error "not an array")
  end.

Definition set_vector (c : JsonContainer) (key : string)
           (items : list JsonContainer) : JsonContainer :=
  set c key (JArray (map JObject items)).

End lth_jc.
Export lth_jc.

(* ================================================================= *)
(** * Schemas and validators (PCPClient) *)

Module PCPClient.

Inductive TypeConstraint : Type :=
  | T_Object | T_Array | T_String | T_Int | T_Bool | T_Null | T_Any.

Definition has_type (t : TypeConstraint) (v : json) : bool :=
  match t, v with
  | T_Any, _ => true
  | T_Object, JObject _ => true
  | T_Array, JArray _ => true
  | T_String, JString _ => true
  | T_Int, JInt _ => true
  | T_Bool, JBool _ => true
  | T_Null, JNull => true
  | _, _ => false
  end.

Record Constraint : Type := {
  field : string;
  type : TypeConstraint;
  required : bool
}.

Record Schema : Type := {
  name : string;
  constraints : list Constraint
}.

Definition addConstraint (sch : Schema) (f : string) (t : TypeConstraint)
           (req : bool) : Schema :=
  {| name := name sch;
     constraints :=
       constraints sch ++ [{| field := f; type := t; required := req |}] |}.

Definition satisfies (c : JsonContainer) (k : Constraint) : bool :=
  match lookup_member (field k) c with
  | Some v => has_type (type k) v
  | None => negb (required k)
  end.

Definition conforms (sch : Schema) (c : JsonContainer) : bool :=
  forallb (satisfies c) (constraints sch).

Definition Validator : Type := gmap string Schema.

Definition registerSchema (v : Validator) (sch : Schema) : Validator :=
  <[name sch := sch]> v.

Definition validate (v : Validator) (c : JsonContainer) (schema_name : string)
  : result unit :=
  match v !! schema_name with
  | None => Throw (schema_not_found_error schema_name)
  | Some sch =>
      if conforms sch c then Return tt
      else Throw (validation_error ("does not match schema " +:+ schema_name))
  end.

(** What the connector receives from the transport. *)
Inductive ContentType : Type := Json | Binary.

Record ParsedChunks : Type := {
  envelope : JsonContainer;
  has_data : bool;
  data_type : ContentType;
  data : JsonContainer;
  debug : list JsonContainer;
  num_invalid_debug : nat
}.

End PCPClient.
Export PCPClient.

(* ================================================================= *)
(** * Requests, outcomes and statuses *)

Inductive RequestType : Type := Blocking | NonBlocking.

Definition requestTypeNames (t : RequestType) : string :=
  match t with
  | Blocking => "blocking"
  | NonBlocking => "non blocking"
  end.

Inductive ModuleType : Type := Internal | External.

(** The members of [ActionRequest] (action_request.hpp), with the results
    directory that request_processor.cc sets and reads.  The accessors of
    the class return the member of the same name; the lazily initialised
    ones ([params], [paramsTxt], ...) are memoised values of the parsed
    chunks and appear as members as well. *)
Record ActionRequest : Type := {
  type_ : RequestType;
  id_ : string;
  sender_ : string;
  transaction_id_ : string;
  module_ : string;
  action_ : string;
  notify_outcome_ : bool;
  parsed_chunks_ : ParsedChunks;
  params_ : JsonContainer;
  params_txt_ : string;
  results_dir_ : string
}.

Definition setResultsDir (request : ActionRequest) (dir : string) : ActionRequest :=
  {| type_ := type_ request; id_ := id_ request; sender_ := sender_ request;
     transaction_id_ := transaction_id_ request; module_ := module_ request;
     action_ := action_ request; notify_outcome_ := notify_outcome_ request;
     parsed_chunks_ := parsed_chunks_ request; params_ := params_ request;
     params_txt_ := params_txt_ request; results_dir_ := dir |}.

Record ActionOutcome : Type := {
  outcome_type : ModuleType;
  results : json;
  std_out : string;
  std_err : string;
  exitcode : Z
}.

Record ActionOutput : Type := {
  output_exitcode : Z;
  output_stdout : string;
  output_stderr : string
}.

Inductive ActionStatus : Type := Running | Success | Failure.

(** Modelled from the spec: the table ACTION_STATUS_NAMES is declared in a
    header that is not among the sources; section 3 gives the persisted
    names "running", "success" and "failure". *)
Definition ACTION_STATUS_NAMES (s : ActionStatus) : string :=
  match s with
  | Running => "running"
  | Success => "success"
  | Failure => "failure"
  end.

Definition EXIT_FAILURE : Z := 1.

(* ================================================================= *)
(** * action_response.cc *)

Module R_T.
Inductive ResponseType : Type := Blocking | NonBlocking | StatusOutput | RPCError.
End R_T.

Definition ACTION_METADATA_SCHEMA : string := "action_metdata_schema".

Definition REQUESTER : string := "requester".
Definition MODULE : string := "module".
Definition ACTION : string := "action".
Definition REQUEST_PARAMS : string := "request_params".
Definition TRANSACTION_ID : string := "transaction_id".
Definition REQUEST_ID : string := "request_id".
Definition NOTIFY_OUTCOME : string := "notify_outcome".
Definition START : string := "start".
Definition STATUS : string := "status".
Definition END_ : string := "end".
Definition RESULTS : string := "results".
Definition RESULTS_ARE_VALID : string := "results_are_valid".
Definition EXECUTION_ERROR : string := "execution_error".

Definition action_metadata_schema : Schema :=
  let sch := {| name := ACTION_METADATA_SCHEMA; constraints := [] |} in
  (* Entries created during initialization (all mandatory) *)
  let sch := addConstraint sch REQUESTER T_String true in
  let sch := addConstraint sch MODULE T_String true in
  let sch := addConstraint sch ACTION T_String true in
  let sch := addConstraint sch REQUEST_PARAMS T_String true in
  let sch := addConstraint sch TRANSACTION_ID T_String true in
  let sch := addConstraint sch REQUEST_ID T_String true in
  let sch := addConstraint sch NOTIFY_OUTCOME T_Bool true in
  let sch := addConstraint sch START T_String true in
  let sch := addConstraint sch STATUS T_String true in
  (* Entries created after processing the action's output *)
  let sch := addConstraint sch END_ T_String false in
  let sch := addConstraint sch RESULTS T_Any false in
  let sch := addConstraint sch RESULTS_ARE_VALID T_Bool false in
  let sch := addConstraint sch EXECUTION_ERROR T_String false in
  sch.

Definition getActionMetadataValidator : Validator :=
  registerSchema ∅ action_metadata_schema.

Record ActionResponse : Type := {
  module_type : ModuleType;
  request_type : RequestType;
  output : ActionOutput;
  action_metadata : JsonContainer
}.

Definition empty_output : ActionOutput :=
  {| output_exitcode := 0; output_stdout := ""; output_stderr := "" |}.

Definition with_metadata (r : ActionResponse) (m : JsonContainer) : ActionResponse :=
  {| module_type := module_type r; request_type := request_type r;
     output := output r; action_metadata := m |}.

(** [now] stands for the value of [get_ISO8601_time()] at the call. *)
Definition getMetadataFromRequest (now : string) (request : ActionRequest)
  : JsonContainer :=
  let m := lth_jc.empty_object in
  let m := set m REQUESTER (JString (sender_ request)) in
  let m := set m MODULE (JString (module_ request)) in
  let m := set m ACTION (JString (action_ request)) in
  let m := set m REQUEST_PARAMS
             (JString (if empty (params_txt_ request) then "none"
                       else params_txt_ request)) in
  let m := set m TRANSACTION_ID (JString (transaction_id_ request)) in
  let m := set m REQUEST_ID (JString (id_ request)) in
  let m := set m NOTIFY_OUTCOME (JBool (notify_outcome_ request)) in
  let m := set m START (JString now) in
  let m := set m STATUS (JString (ACTION_STATUS_NAMES Running)) in
  m.

Definition isValidActionMetadata (metadata : JsonContainer) : result bool :=
  match validate getActionMetadataValidator metadata ACTION_METADATA_SCHEMA with
  | Return _ => Return true
  | Throw (validation_error _) => Return false
  | Throw e => Throw e
  end.

Definition valid (r : ActionResponse) : result bool :=
  isValidActionMetadata (action_metadata r).

(** The constructor that starts recording a request. *)
Definition ActionResponse_of_request (now : string) (module_type_ : ModuleType)
           (request : ActionRequest) : ActionResponse :=
  {| module_type := module_type_;
     request_type := type_ request;
     output := empty_output;
     action_metadata := getMetadataFromRequest now request |}.

(** The constructor from a completed outcome. *)
Definition ActionResponse_of_outcome (module_type_ : ModuleType)
           (request_type_ : RequestType) (output_ : ActionOutput)
           (action_metadata_ : JsonContainer) : result ActionResponse :=
  let this := {| module_type := module_type_; request_type := request_type_;
                 output := output_; action_metadata := action_metadata_ |} in
  ok ← valid this;
  if negb ok then Throw (ActionResponse_Error "invalid action metadata")
  else Return this.

Definition setStatus (r : ActionResponse) (status : ActionStatus) : ActionResponse :=
  with_metadata r (set (action_metadata r) STATUS (JString (ACTION_STATUS_NAMES status))).

Definition setValidResultsAndEnd (now : string) (r : ActionResponse)
           (results_ : json) (execution_error : string) : ActionResponse :=
  let m := action_metadata r in
  let m := set m END_ (JString now) in
  let m := set m RESULTS_ARE_VALID (JBool true) in
  let m := set m RESULTS results_ in
  let m := set m STATUS (JString (ACTION_STATUS_NAMES Success)) in
  let m := if negb (empty execution_error)
           then set m EXECUTION_ERROR (JString execution_error)
           else m in
  with_metadata r m.

Definition setBadResultsAndEnd (now : string) (r : ActionResponse)
           (execution_error : string) : ActionResponse :=
  let m := action_metadata r in
  let m := set m END_ (JString now) in
  let m := set m RESULTS_ARE_VALID (JBool false) in
  let m := set m EXECUTION_ERROR (JString execution_error) in
  let m := set m STATUS (JString (ACTION_STATUS_NAMES Failure)) in
  with_metadata r m.

Definition valid_for (r : ActionResponse) (response_type : R_T.ResponseType)
  : result bool :=
  ok ← valid r;
  if negb ok then Return false
  else
    match response_type with
    | R_T.Blocking | R_T.NonBlocking =>
        Return (includes (action_metadata r) RESULTS)
    | R_T.StatusOutput => Return true
    | R_T.RPCError => Return (includes (action_metadata r) EXECUTION_ERROR)
    end.

Definition toJSON (this : ActionResponse) (response_type : R_T.ResponseType)
  : result JsonContainer :=
  let r := lth_jc.empty_object in
  tid ← get_string (action_metadata this) TRANSACTION_ID;
  let r := set r TRANSACTION_ID (JString tid) in
  match response_type with
  | R_T.Blocking | R_T.NonBlocking =>
      res ← get_container (action_metadata this) RESULTS;
      Return (set r RESULTS res)
  | R_T.StatusOutput =>
      st ← get_string (action_metadata this) STATUS;
      let r := set r STATUS (JString st) in
      let r := set r "stdout" (JString (output_stdout (output this))) in
      let r := set r "stderr" (JString (output_stderr (output this))) in
      let r := set r "exitcode" (JInt (output_exitcode (output this))) in
      Return r
  | R_T.RPCError =>
      rid ← get_string (action_metadata this) REQUEST_ID;
      let r := set r "id" (JString rid) in
      descr ← get_string (action_metadata this) EXECUTION_ERROR;
      Return (set r "description" (JString descr))
  end.

(** The responses reached from [r0] by the setters of the class. *)
Inductive derived_from (r0 : ActionResponse) : ActionResponse -> Prop :=
  | derived_here : derived_from r0 r0
  | derived_setStatus r status :
      derived_from r0 r -> derived_from r0 (setStatus r status)
  | derived_setValidResultsAndEnd now r results_ execution_error :
      derived_from r0 r ->
      derived_from r0 (setValidResultsAndEnd now r results_ execution_error)
  | derived_setBadResultsAndEnd now r execution_error :
      derived_from r0 r ->
      derived_from r0 (setBadResultsAndEnd now r execution_error).

(** The wire shapes of section 6 of the specification, as key sets. *)
Definition spec_wire_keys (response_type : R_T.ResponseType) : list string :=
  match response_type with
  | R_T.Blocking | R_T.NonBlocking => ["transaction_id"; "results"]
  | R_T.StatusOutput => ["transaction_id"; "status"; "stdout"; "stderr"; "exitcode"]
  | R_T.RPCError => ["id"; "description"]
  end.

(* ================================================================= *)
(** * State, exceptions and traces *)

(** A computation over a state [S] that returns an [A] or throws. *)
Definition M (S A : Type) : Type := S -> result A * S.

Definition ret {S A} (a : A) : M S A := fun s => (Return a, s).

Definition throw {S A} (e : exn) : M S A := fun s => (Throw e, s).

Definition bind {S A B} (c : M S A) (k : A -> M S B) : M S B :=
  fun s =>
    match c s with
    | (Return a, s') => k a s'
    | (Throw e, s') => (Throw e, s')
    end.

Definition gets {S A} (f : S -> A) : M S A := fun s => (Return (f s), s).

Definition modify {S} (f : S -> S) : M S unit := fun s => (Return tt, f s).

(** A pure call that may throw. *)
Definition pure {S A} (r : result A) : M S A := fun s => (r, s).

(** [try { body } catch (...) { ... }]: the handler says which exceptions
    it catches; the others propagate. *)
Definition try_catch {S A} (body : M S A) (handler : exn -> option (M S A))
  : M S A :=
  fun s =>
    match body s with
    | (Return a, s') => (Return a, s')
    | (Throw e, s') =>
        match handler e with
        | Some h => h s'
        | None => (Throw e, s')
        end
    end.

(** [lth_util::scope_exit]: the cleaner runs when the scope is left, by a
    return or by an exception. *)
Definition scope_exit {S A} (cleaner : M S unit) (body : M S A) : M S A :=
  fun s =>
    match body s with
    | (r, s') => (r, snd (cleaner s'))
    end.

Declare Scope task_scope.
Delimit Scope task_scope with task.
Notation "x <- c ;; k" := (bind c (fun x => k))
  (at level 100, c at next level, right associativity) : task_scope.
Notation "c ;; k" := (bind c (fun _ => k))
  (at level 100, right associativity) : task_scope.
Local Open Scope task_scope.

(** What the agent hands to the connector. *)
Inductive message : Type :=
  | BlockingResponse (request : ActionRequest) (results_ : json)
  | NonBlockingResponse (request : ActionRequest) (results_ : json) (job_id : string)
  | ProvisionalResponse (request : ActionRequest)
  | PXPError (request : ActionRequest) (description : string)
  | PCPError (id description : string) (endpoints : list string).

Inductive event : Type :=
  | Sent (m : message)               (* the connector call returned *)
  | SendFailed (m : message)         (* the connector call threw *)
  | AccessLocked                     (* ResultsMutex access_mtx *)
  | AccessUnlocked
  | MutexAdded (transaction_id : string)
  | MutexRemoved (transaction_id : string)
  | MutexLocked (transaction_id : string)
  | MutexUnlocked (transaction_id : string)
  | DirectoriesCreated (path : string)
  | FileWritten (path : string) (content : JsonContainer)
  | ActionExecuted (module_name : string) (request : ActionRequest)
  | ThreadAdded (module_name : string) (request : ActionRequest)
  | ThreadStarted (module_name : string) (request : ActionRequest)
  | DoneSet (value : bool).          (* the flag the thread container reads *)

Record World : Type := {
  cache : gset string;                (* ResultsMutex: cached transactions *)
  directories : gset string;          (* directories that exist *)
  files : gmap string JsonContainer;  (* JSON files, by path *)
  trace : list event
}.

(** The choices of the environment: where a collaborator may fail, whether
    it does and with what. *)
Record Env : Type := {
  send_error : message -> option string;           (* connection_error *)
  create_directories_error : string -> option string; (* filesystem_error *)
  atomic_write_error : string -> option exn;
  thread_error : option exn;
  thread_started : bool;   (* when it throws: the thread was started already *)
  elapsed_seconds : string                         (* the timer, as text *)
}.

Definition log (e : event) : M World unit :=
  modify (fun w => {| cache := cache w; directories := directories w;
                      files := files w; trace := trace w ++ [e] |}).

Definition set_cache (c : gset string) : M World unit :=
  modify (fun w => {| cache := c; directories := directories w;
                      files := files w; trace := trace w |}).

Definition set_directories (d : gset string) : M World unit :=
  modify (fun w => {| cache := cache w; directories := d;
                      files := files w; trace := trace w |}).

Definition set_files (f : gmap string JsonContainer) : M World unit :=
  modify (fun w => {| cache := cache w; directories := directories w;
                      files := f; trace := trace w |}).

(** ** The connector *)

Definition send (env : Env) (m : message) : M World unit :=
  match send_error env m with
  | Some w => log (SendFailed m) ;; throw (connection_error w)
  | None => log (Sent m)
  end.

Definition sendBlockingResponse env request results_ :=
  send env (BlockingResponse request results_).
Definition sendNonBlockingResponse env request results_ job_id :=
  send env (NonBlockingResponse request results_ job_id).
Definition sendProvisionalResponse env request :=
  send env (ProvisionalResponse request).
Definition sendPXPError env request description :=
  send env (PXPError request description).
Definition sendPCPError env id description endpoints :=
  send env (PCPError id description endpoints).

(** ** The file system *)

Definition create_directories (env : Env) (path : string) : M World unit :=
  match create_directories_error env path with
  | Some w => throw (filesystem_error w)
  | None =>
      dirs <- gets directories ;;
      set_directories ({[path]} ∪ dirs) ;;
      log (DirectoriesCreated path)
  end.

Definition atomic_write_to_file (env : Env) (content : JsonContainer)
           (path : string) : M World unit :=
  match atomic_write_error env path with
  | Some e => throw e
  | None =>
      fs <- gets files ;;
      set_files (<[path := content]> fs) ;;
      log (FileWritten path content)
  end.

(** ** ResultsMutex *)

Module ResultsMutex.

(** [LockGuard a_l { access_mtx }]: held for the scope.  [log_] is how
    the caller writes to the trace. *)
Definition LockGuard {S A} (log_ : event -> M S unit) (body : M S A) : M S A :=
  log_ AccessLocked ;; scope_exit (log_ AccessUnlocked) body.

(** Modelled from the spec: results_mutex.hpp is not among the sources.
    Section 4.5: [add(id)], [remove(id)], [exists(id)] and [get(id)],
    the last failing when the entry is absent; the task catches
    [ResultsMutex::Error] around [get] and around [remove]. *)
Definition exists_ (id : string) : M World bool :=
  gets (fun w => bool_decide (id ∈ cache w)).

Definition add (id : string) : M World unit :=
  present <- exists_ id ;;
  if present then throw (ResultsMutex_Error "mutex already cached")
  else (c <- gets cache ;; set_cache ({[id]} ∪ c) ;; log (MutexAdded id)).

Definition remove (id : string) : M World unit :=
  present <- exists_ id ;;
  if present then (c <- gets cache ;; set_cache (c ∖ {[id]}) ;; log (MutexRemoved id))
  else throw (ResultsMutex_Error "mutex not found").

Definition get (id : string) : M World unit :=
  present <- exists_ id ;;
  if present then ret tt
  else throw (ResultsMutex_Error "mutex not found").

End ResultsMutex.

(** ** Results Storage *)

Module ResultsStorage.

Record t : Type := {
  module : string;
  action : string;
  metadata_file : string;
  action_metadata : JsonContainer
}.

Definition with_metadata (this : t) (m : JsonContainer) : t :=
  {| module := module this; action := action this;
     metadata_file := metadata_file this; action_metadata := m |}.

Definition initialize (env : Env) (this : t) (request : ActionRequest)
  : M World t :=
  present <- gets (fun w => bool_decide (results_dir_ request ∈ directories w)) ;;
  (if negb present then
     try_catch (create_directories env (results_dir_ request))
       (fun e =>
          match e with
          | filesystem_error w =>
              Some (throw (ResultsStorage_Error
                             ("failed to create results directory: " +:+ w)))
          | _ => None
          end)
   else ret tt) ;;
  let m := action_metadata this in
  let m := set m "module" (JString (module this)) in
  let m := set m "action" (JString (action this)) in
  let m := set m "completed" (JBool false) in
  let m := set m "duration" (JString "0 s") in
  let m := if negb (empty (params_txt_ request))
           then set m "input" (JString (params_txt_ request))
           else set m "input" (JString "none") in
  atomic_write_to_file env m (metadata_file this) ;;
  ResultsMutex.LockGuard log
    (present <- ResultsMutex.exists_ (transaction_id_ request) ;;
     if present then ret tt   (* already cached; unexpected *)
     else ResultsMutex.add (transaction_id_ request)) ;;
  ret (with_metadata this m).

Definition new (env : Env) (request : ActionRequest) : M World t :=
  initialize env
    {| module := module_ request;
       action := action_ request;
       metadata_file := path_append (results_dir_ request) "metadata";
       action_metadata := lth_jc.empty_object |}
    request.

Definition writeMetadata (env : Env) (this : t) (exit_code : Z)
           (exec_error duration : string) : M World unit :=
  let m := action_metadata this in
  let m := set m "completed" (JBool true) in
  let m := set m "duration" (JString duration) in
  let m := set m "exitcode" (JInt exit_code) in
  let m := set m "exec_error" (JString exec_error) in
  atomic_write_to_file env m (metadata_file this).

End ResultsStorage.

(* ================================================================= *)
(** * Modules *)

(** A module of the registry.  [executeAction] is virtual and, for an
    external module, runs a subprocess: here it is the function from the
    request to what the call returns or throws. *)
Record Module_ : Type := {
  module_name : string;
  type : ModuleType;
  actions : list string;
  input_validator_ : Validator;
  output_validator_ : Validator;
  executeAction : ActionRequest -> result ActionOutcome
}.

(** Modelled from the spec: [Module::hasAction] is defined in module.cc,
    which is not among the sources.  Section 4.2: a module has an ordered
    list of actions and [hasAction(name)] tells whether it has the one
    named. *)
Definition hasAction (m : Module_) (action_name : string) : bool :=
  bool_decide (action_name ∈ actions m).

Definition call_executeAction (m : Module_) (request : ActionRequest)
  : M World ActionOutcome :=
  log (ActionExecuted (module_name m) request) ;;
  pure (executeAction m request).

(* ================================================================= *)
(** * Non-blocking action task *)

(** One run of the task is modelled, with the actions of the task in the
    order in which it performs them; what other threads do in between is
    not.

    The local variables of [nonBlockingActionTask] that outlive a [try]
    block, the shared [done] flag, and the world the task acts on.
    [lck_ptr] is [None] for a null pointer and otherwise tells whether the
    lock owns the transaction's mutex. *)
Record Frame : Type := {
  world : World;
  lck_ptr : option bool;
  completed : bool;
  exit_code : Z;
  exec_error : string;
  done : bool
}.

Definition lift {A} (c : M World A) : M Frame A :=
  fun f =>
    match c (world f) with
    | (r, w) => (r, {| world := w; lck_ptr := lck_ptr f; completed := completed f;
                       exit_code := exit_code f; exec_error := exec_error f;
                       done := done f |})
    end.

Definition log_event (e : event) : M Frame unit := lift (log e).

Definition set_lck_ptr (l : option bool) : M Frame unit :=
  modify (fun f => {| world := world f; lck_ptr := l; completed := completed f;
                      exit_code := exit_code f; exec_error := exec_error f;
                      done := done f |}).

Definition set_completed (b : bool) : M Frame unit :=
  modify (fun f => {| world := world f; lck_ptr := lck_ptr f; completed := b;
                      exit_code := exit_code f; exec_error := exec_error f;
                      done := done f |}).

Definition set_exit_code (z : Z) : M Frame unit :=
  modify (fun f => {| world := world f; lck_ptr := lck_ptr f; completed := completed f;
                      exit_code := z; exec_error := exec_error f;
                      done := done f |}).

Definition set_exec_error (s : string) : M Frame unit :=
  modify (fun f => {| world := world f; lck_ptr := lck_ptr f; completed := completed f;
                      exit_code := exit_code f; exec_error := s;
                      done := done f |}).

(** [*done = b] *)
Definition set_done (b : bool) : M Frame unit :=
  log_event (DoneSet b) ;;
  modify (fun f => {| world := world f; lck_ptr := lck_ptr f; completed := completed f;
                      exit_code := exit_code f; exec_error := exec_error f;
                      done := b |}).

(** [lck_ptr->lock()] and [lck_ptr->unlock()] of a [unique_lock]. *)
Definition lock (transaction_id : string) : M Frame unit :=
  l <- gets lck_ptr ;;
  match l with
  | Some false => log_event (MutexLocked transaction_id) ;; set_lck_ptr (Some true)
  | Some true => throw (std_exception "resource deadlock would occur")
  | None => throw (std_exception "operation not permitted")
  end.

Definition unlock (transaction_id : string) : M Frame unit :=
  l <- gets lck_ptr ;;
  match l with
  | Some true => log_event (MutexUnlocked transaction_id) ;; set_lck_ptr (Some false)
  | _ => throw (std_exception "operation not permitted")
  end.

Definition LF : string := String "010"%char EmptyString.

Definition task_cleaner (request : ActionRequest) : M Frame unit :=
  l <- gets lck_ptr ;;
  (match l with
   | Some _ =>
       (* Lock and remove the mutex for this non-blocking transaction *)
       c <- gets completed ;;
       (if negb c then lock (transaction_id_ request) else ret tt) ;;
       try_catch
         (ResultsMutex.LockGuard log_event
            (lift (ResultsMutex.remove (transaction_id_ request))))
         (fun e =>
            match e with
            | ResultsMutex_Error _ => Some (ret tt)
            | _ => None
            end) ;;
       unlock (transaction_id_ request)
   | None => ret tt
   end) ;;
  (* Flag the end of execution, for the thread container *)
  set_done true.

Definition nonBlockingActionTask (env : Env) (module_ptr : Module_)
           (request : ActionRequest) (results_storage : ResultsStorage.t)
  : M Frame unit :=
  try_catch
    (ResultsMutex.LockGuard log_event
       (lift (ResultsMutex.get (transaction_id_ request)) ;;
        set_lck_ptr (Some false)))
    (fun e =>
       match e with
       | ResultsMutex_Error _ => Some (ret tt)   (* This is unexpected *)
       | _ => None
       end) ;;
  scope_exit (task_cleaner request)
    (try_catch
       (outcome <- lift (call_executeAction module_ptr request) ;;
        l <- gets lck_ptr ;;
        (match l with
         | Some _ => lock (transaction_id_ request)
         | None => ret tt   (* we will not lock the access to the metadata file *)
         end) ;;
        set_completed true ;;
        (* assert(outcome.type == ActionOutcome::Type::External) *)
        set_exit_code (exitcode outcome) ;;
        notify <- pure (get_bool (data (parsed_chunks_ request)) "notify_outcome") ;;
        if notify : bool then
          lift (sendNonBlockingResponse env request (results outcome)
                  (transaction_id_ request))
        else ret tt)
       (fun e =>
          match e with
          | Module_ProcessingError w =>
              Some (set_exec_error ("Failed to execute: " +:+ w +:+ LF) ;;
                    try_catch (lift (sendPXPError env request w))
                      (fun e' =>
                         match e' with
                         | connection_error _ => Some (ret tt)
                         | _ => None
                         end))
          | connection_error w =>
              Some (set_exec_error
                      ("Failed to send non blocking response: " +:+ w +:+ LF))
          | _ => None
          end) ;;
     (* Store metadata on disk *)
     let duration := elapsed_seconds env +:+ " s" in
     try_catch
       (code <- gets exit_code ;;
        err <- gets exec_error ;;
        lift (ResultsStorage.writeMetadata env results_storage code err duration))
       (fun e =>
          match e with
          | ResultsStorage_Error _ => Some (ret tt)
          | _ => None
          end)).

(** The frame at the start of the task. *)
Definition task_start (w : World) : Frame :=
  {| world := w; lck_ptr := None; completed := false;
     exit_code := EXIT_FAILURE; exec_error := ""; done := false |}.

Definition run_task (env : Env) (module_ptr : Module_) (request : ActionRequest)
           (results_storage : ResultsStorage.t) (w : World) : result unit * Frame :=
  nonBlockingActionTask env module_ptr request results_storage (task_start w).

(* ================================================================= *)
(** * Request Processor *)

(** [thread_container_.add(pcp_util::thread(&nonBlockingActionTask, ...),
    done)]: the thread is constructed, which starts the task, and is then
    handed to the container.  The statement returns ([ThreadAdded]), or it
    throws: in the constructor of the thread, when no task has been
    started, or in [add], when the task is running already
    ([ThreadStarted]). *)
Definition thread_container_add (env : Env) (module_ptr : Module_)
           (request : ActionRequest) (storage : ResultsStorage.t) : M World unit :=
  match thread_error env with
  | Some e =>
      if thread_started env
      then log (ThreadStarted (module_name module_ptr) request) ;; throw e
      else throw e
  | None => log (ThreadAdded (module_name module_ptr) request)
  end.

Record RequestProcessor : Type := {
  spool_path_ : string;
  modules_ : gmap string Module_
}.

(** [modules_.at(name)] *)
Definition modules_at (this : RequestProcessor) (name : string) : result Module_ :=
  match modules_ this !! name with
  | Some m => Return m
  | None => Throw (out_of_range "map::at")
  end.

Definition catch_result {A} (r : result A) (handler : exn -> option (result A))
  : result A :=
  match r with
  | Return a => Return a
  | Throw e =>
      match handler e with
      | Some h => h
      | None => Throw e
      end
  end.

Definition validateRequestContent (this : RequestProcessor)
           (request : ActionRequest) : result unit :=
  (* Validate requested module and action *)
  _ ← catch_result
        (m ← modules_at this (module_ request);
         if negb (hasAction m (action_ request))
         then Throw (RequestProcessor_Error
                       ("unknown action '" +:+ action_ request
                        +:+ "' for module '" +:+ module_ request +:+ "'"))
         else Return tt)
        (fun e =>
           match e with
           | out_of_range _ =>
               Some (Throw (RequestProcessor_Error
                              ("unknown module: " +:+ module_ request)))
           | _ => None
           end);
  (* If it's an internal module, the request must be blocking *)
  m ← modules_at this (module_ request);
  _ ← match type m, type_ request with
      | Internal, NonBlocking =>
          Throw (RequestProcessor_Error
                   ("the module '" +:+ module_ request +:+ "' "
                    +:+ "supports only blocking PXP requests"))
      | _, _ => Return tt
      end;
  (* Validate request input params *)
  catch_result
    (m ← modules_at this (module_ request);
     validate (input_validator_ m) (params_ request) (action_ request))
    (fun e =>
       match e with
       | validation_error _ =>
           Some (Throw (RequestProcessor_Error
                          ("invalid input for '" +:+ module_ request
                           +:+ " " +:+ action_ request +:+ "'")))
       | _ => None
       end).

(** [modules_[name]->executeAction(request)]; the entry exists once the
    request has been validated. *)
Definition modules_index (this : RequestProcessor) (name : string) : M World Module_ :=
  match modules_ this !! name with
  | Some m => ret m
  | None => throw (std_exception "null module pointer")
  end.

Definition processBlockingRequest (env : Env) (this : RequestProcessor)
           (request : ActionRequest) : M World unit :=
  (* Execute action; possible request errors will be propagated *)
  m <- modules_index this (module_ request) ;;
  outcome <- call_executeAction m request ;;
  sendBlockingResponse env request (results outcome).

Definition results_dir_of (this : RequestProcessor) (request : ActionRequest)
  : string :=
  path_append (spool_path_ this) (transaction_id_ request).

Definition processNonBlockingRequest (env : Env) (this : RequestProcessor)
           (request : ActionRequest) : M World unit :=
  let request := setResultsDir request (results_dir_of this request) in
  err_msg <-
    try_catch
      ((* Flag to enable signaling from task to thread_container *)
       m <- modules_index this (module_ request) ;;
       storage <- ResultsStorage.new env request ;;
       thread_container_add env m request storage ;;
       ret "")
      (fun e =>
         match e with
         | ResultsStorage_Error w =>
             (* Failed to instantiate ResultsStorage *)
             Some (ret ("failed to initialize result files: " +:+ w))
         | _ =>
             Some (ret ("failed to start action task: " +:+ what e))
         end) ;;
  if empty err_msg then sendProvisionalResponse env request
  else sendPXPError env request err_msg.

(** The request is passed to [processNonBlockingRequest] by reference:
    what [processRequest] holds afterwards. *)
Definition after_dispatch (this : RequestProcessor) (request : ActionRequest)
  : ActionRequest :=
  match type_ request with
  | Blocking => request
  | NonBlocking => setResultsDir request (results_dir_of this request)
  end.

Section processRequest.

(** The constructor of [ActionRequest] is defined in action_request.cc,
    which is not among the sources; [processRequest] is stated for
    whatever it does. *)
Variable ActionRequest_new : RequestType -> ParsedChunks -> result ActionRequest.

Definition processRequest (env : Env) (this : RequestProcessor)
           (request_type : RequestType) (parsed_chunks : ParsedChunks)
  : M World unit :=
  try_catch
    ((* Inspect and validate the request message format *)
     request <- pure (ActionRequest_new request_type parsed_chunks) ;;
     validated <-
       try_catch
         ((* We can access the request content; validate it *)
          pure (validateRequestContent this request) ;;
          ret true)
         (fun e =>
            match e with
            | RequestProcessor_Error w =>
                (* Invalid request; send *PXP error* *)
                Some (sendPXPError env request w ;; ret false)
            | _ => None
            end) ;;
     if validated : bool then
       try_catch
         (match type_ request with
          | Blocking => processBlockingRequest env this request
          | NonBlocking => processNonBlockingRequest env this request
          end)
         (fun e =>
            (* Process failure; send *PXP error* *)
            Some (sendPXPError env (after_dispatch this request) (what e)))
     else ret tt)
    (fun e =>
       match e with
       | ActionRequest_Error w =>
           (* Failed to instantiate ActionRequest - bad message;
              send *PCP error* *)
           Some (id <- pure (get_string (envelope parsed_chunks) "id") ;;
                 sender <- pure (get_string (envelope parsed_chunks) "sender") ;;
                 let endpoints := [sender] in
                 sendPCPError env id w endpoints)
       | _ => None
       end).

End processRequest.

(* ================================================================= *)
(** * modules/ping.cc *)

Module Ping.

Definition PING : string := "ping".

(** Modelled from the spec: the constructor of [ActionOutcome] from the
    results of an internal action is declared in action_outcome.hpp,
    which is not among the sources.  Section 3: for internal modules
    only [results] is meaningful. *)
Definition outcome_of_results (r : JsonContainer) : ActionOutcome :=
  {| outcome_type := Internal; results := JObject r;
     std_out := ""; std_err := ""; exitcode := 0 |}.

Section ping.

(** [debug_entry.get<std::vector<JsonContainer>>(key)] on a debug
    chunk, with whatever it throws. *)
Variable get_hops : JsonContainer -> string -> result (list JsonContainer).

Definition ping (request : ActionRequest) : result JsonContainer :=
  let data := lth_jc.empty_object in
  match debug (parsed_chunks_ request) with
  | [] => Throw (request_processing_error "no debug entry")
  | debug_entry :: _ =>
      catch_result
        (hops ← get_hops debug_entry "hops";
         Return (set_vector data "request_hops" hops))
        (fun e =>
           match e with
           | data_parse_error _ =>
               Some (Throw (request_processing_error
                              "debug entry is not valid JSON"))
           | _ => None
           end)
  end.

Definition callAction (request : ActionRequest) : result ActionOutcome :=
  r ← ping request; Return (outcome_of_results r).

End ping.

Definition input_schema : Schema :=
  addConstraint {| name := PING; constraints := [] |}
    "sender_timestamp" T_String false.

Definition output_schema : Schema := {| name := PING; constraints := [] |}.

(** The module as the registry holds it. *)
Definition Ping : Module_ :=
  {| module_name := PING;
     type := Internal;
     actions := [PING];
     input_validator_ := registerSchema ∅ input_schema;
     output_validator_ := registerSchema ∅ output_schema;
     executeAction := callAction lth_jc.get_vector |}.

End Ping.

(* ================================================================= *)
(** * The constructor of ActionRequest *)

Definition QUOTE : string := String "034"%char EmptyString.

(** [JsonContainer::toString()], compact and without escapes. *)
Fixpoint toString (j : json) : string :=
  match j with
  | JNull => "null"
  | JBool true => "true"
  | JBool false => "false"
  | JInt z => pretty z
  | JString s => QUOTE +:+ s +:+ QUOTE
  | JArray items =>
      "[" +:+
      (fix go (l : list json) : string :=
         match l with
         | [] => ""
         | [x] => toString x
         | x :: rest => toString x +:+ "," +:+ go rest
         end) items +:+ "]"
  | JObject members =>
      "{" +:+
      (fix go (l : list (string * json)) : string :=
         match l with
         | [] => ""
         | [(k, v)] => QUOTE +:+ k +:+ QUOTE +:+ ":" +:+ toString v
         | (k, v) :: rest =>
             QUOTE +:+ k +:+ QUOTE +:+ ":" +:+ toString v +:+ "," +:+ go rest
         end) members +:+ "}"
  end.

Definition nonempty_entry (c : JsonContainer) (key : string) : result string :=
  match get_string c key with
  | Return s =>
      if bool_decide (s = "")
      then Throw (ActionRequest_Error ("empty " +:+ key))
      else Return s
  | Throw _ => Throw (ActionRequest_Error ("no " +:+ key))
  end.

(** Modelled from the spec: the constructor of [ActionRequest] is defined
    in action_request.cc, which is not among the sources.  Section 4.1:
    it validates the envelope format (non-empty id, sender and
    transaction_id; data chunk present and structured, not binary) and
    fails with a request format error otherwise; section 3: module and
    action are non-empty, params is structured data, and the attributes are
    read from the data chunk.  An absent notify_outcome reads as false and
    absent params as no params text. *)
Definition ActionRequest_new (type : RequestType) (chunks : ParsedChunks)
  : result ActionRequest :=
  id ← nonempty_entry (envelope chunks) "id";
  sender ← nonempty_entry (envelope chunks) "sender";
  transaction_id ← nonempty_entry (envelope chunks) "transaction_id";
  if negb (has_data chunks) then Throw (ActionRequest_Error "no data")
  else
    match data_type chunks with
    | Binary => Throw (ActionRequest_Error "data is not in JSON format")
    | Json =>
        module ← nonempty_entry (data chunks) "module";
        action ← nonempty_entry (data chunks) "action";
        params ← match lookup_member "params" (data chunks) with
                 | None => Return None
                 | Some (JObject p) => Return (Some p)
                 | Some _ => Throw (ActionRequest_Error "params is not structured")
                 end;
        Return {| type_ := type; id_ := id; sender_ := sender;
                  transaction_id_ := transaction_id;
                  module_ := module; action_ := action;
                  notify_outcome_ :=
                    match get_bool (data chunks) "notify_outcome" with
                    | Return b => b
                    | Throw _ => false
                    end;
                  parsed_chunks_ := chunks;
                  params_ := default [] params;
                  params_txt_ :=
                    match params with
                    | Some p => toString (JObject p)
                    | None => ""
                    end;
                  results_dir_ := "" |}
    end.

(* ================================================================= *)
(** * Reading traces *)

(** Whether every write of [path] in the trace happens while the mutex of
    [transaction_id] is held; [held] tells whether it is at the start. *)
Fixpoint writes_under_mutex (transaction_id path : string) (held : bool)
         (tr : list event) : bool :=
  match tr with
  | [] => true
  | MutexLocked t :: rest =>
      writes_under_mutex transaction_id path
        (if bool_decide (t = transaction_id) then true else held) rest
  | MutexUnlocked t :: rest =>
      writes_under_mutex transaction_id path
        (if bool_decide (t = transaction_id) then false else held) rest
  | FileWritten p _ :: rest =>
      (if bool_decide (p = path) then held else true)
      && writes_under_mutex transaction_id path held rest
  | _ :: rest => writes_under_mutex transaction_id path held rest
  end.

(** The messages handed to the connector, in order. *)
Definition handed_to_connector (tr : list event) : list message :=
  omap (fun e => match e with
                 | Sent m | SendFailed m => Some m
                 | _ => None
                 end) tr.

Definition fresh_world : World :=
  {| cache := ∅; directories := ∅; files := ∅; trace := [] |}.

(** The world with its trace emptied, to read what one run appends. *)
Definition forget_trace (w : World) : World :=
  {| cache := cache w; directories := directories w; files := files w;
     trace := [] |}.

(** The events of one run of the task from the world [w]. *)
Definition task_events (env : Env) (module_ptr : Module_)
           (request : ActionRequest) (results_storage : ResultsStorage.t)
           (w : World) : list event :=
  trace (world (snd (run_task env module_ptr request results_storage
                       (forget_trace w)))).

(** The frame the task leaves. *)
Definition task_end (env : Env) (module_ptr : Module_)
           (request : ActionRequest) (results_storage : ResultsStorage.t)
           (w : World) : Frame :=
  snd (run_task env module_ptr request results_storage (forget_trace w)).

(** What [writeMetadata] puts in the metadata file. *)
Definition final_metadata (results_storage : ResultsStorage.t) (exit_code : Z)
           (exec_error duration : string) : JsonContainer :=
  set (set (set (set (ResultsStorage.action_metadata results_storage)
                     "completed" (JBool true))
                "duration" (JString duration))
           "exitcode" (JInt exit_code))
      "exec_error" (JString exec_error).

(* ================================================================= *)
(** * Examples used below *)

Module Examples.

Definition envelope1 : JsonContainer :=
  [("id", JString "req-1"); ("sender", JString "S");
   ("transaction_id", JString "t1")].

Definition ping_data : JsonContainer :=
  [("module", JString "ping"); ("action", JString "ping");
   ("params", JObject [("sender_timestamp", JString "0")])].

Definition chunks_with (d : JsonContainer) (dbg : list JsonContainer)
  : ParsedChunks :=
  {| envelope := envelope1; has_data := true; data_type := Json;
     data := d; debug := dbg; num_invalid_debug := 0 |}.

Definition hops1 : list JsonContainer := [[("server", JString "A")]].

Definition ping_chunks : ParsedChunks :=
  chunks_with ping_data [[("hops", JArray (map JObject hops1))]].

Definition ping_chunks_no_debug : ParsedChunks := chunks_with ping_data [].

Definition binary_chunks : ParsedChunks :=
  {| envelope := envelope1; has_data := true; data_type := Binary;
     data := []; debug := []; num_invalid_debug := 0 |}.

Definition request_of (type : RequestType) (module action : string)
           (notify : bool) (chunks : ParsedChunks) : ActionRequest :=
  {| type_ := type; id_ := "req-1"; sender_ := "S"; transaction_id_ := "t1";
     module_ := module; action_ := action; notify_outcome_ := notify;
     parsed_chunks_ := chunks; params_ := []; params_txt_ := "";
     results_dir_ := "" |}.

Definition ping_request : ActionRequest :=
  request_of Blocking "ping" "ping" false ping_chunks.

(** An external module with one action, which succeeds or fails as
    [outcome] says. *)
Definition reverse_schema : Schema :=
  addConstraint {| name := "string"; constraints := [] |} "argument" T_String true.

Definition reverse (outcome : result ActionOutcome) : Module_ :=
  {| module_name := "reverse";
     type := External;
     actions := ["string"];
     input_validator_ := registerSchema ∅ reverse_schema;
     output_validator_ := ∅;
     executeAction := fun _ => outcome |}.

Definition anodaram : ActionOutcome :=
  {| outcome_type := External; results := JString "anodaram";
     std_out := "anodaram"; std_err := ""; exitcode := 0 |}.

Definition reverse_data (notify : bool) : JsonContainer :=
  [("module", JString "reverse"); ("action", JString "string");
   ("params", JObject [("argument", JString "maradona")]);
   ("notify_outcome", JBool notify)].

Definition reverse_request (notify : bool) : ActionRequest :=
  {| type_ := NonBlocking; id_ := "req-1"; sender_ := "S";
     transaction_id_ := "t1"; module_ := "reverse"; action_ := "string";
     notify_outcome_ := notify;
     parsed_chunks_ := chunks_with (reverse_data notify) [];
     params_ := [("argument", JString "maradona")];
     params_txt_ := toString (JObject [("argument", JString "maradona")]);
     results_dir_ := "/spool/t1" |}.

Definition reverse_storage : ResultsStorage.t :=
  {| ResultsStorage.module := "reverse";
     ResultsStorage.action := "string";
     ResultsStorage.metadata_file := "/spool/t1/metadata";
     ResultsStorage.action_metadata :=
       [("module", JString "reverse"); ("action", JString "string");
        ("completed", JBool false); ("duration", JString "0 s");
        ("input", JString (params_txt_ (reverse_request true)))] |}.

(** An environment in which no collaborator fails. *)
Definition calm : Env :=
  {| send_error := fun _ => None;
     create_directories_error := fun _ => None;
     atomic_write_error := fun _ => None;
     thread_error := None;
     thread_started := false;
     elapsed_seconds := "0.000000" |}.

(** The world after Results Storage has been set up for "t1". *)
Definition world_t1 : World :=
  {| cache := {["t1"]}; directories := {["/spool/t1"]};
     files := ∅; trace := [] |}.

Definition processor (ms : list Module_) : RequestProcessor :=
  {| spool_path_ := "/spool";
     modules_ := list_to_map (map (fun m => (module_name m, m)) ms) |}.

Definition data_for (module action : string) : JsonContainer :=
  [("module", JString module); ("action", JString action)].

Definition agent : RequestProcessor := processor [Ping.Ping].

Definition error_metadata : JsonContainer :=
  set (getMetadataFromRequest "2015-06-01T10:00:00Z" ping_request)
      EXECUTION_ERROR (JString "no debug entry").

Definition error_response : ActionResponse :=
  {| module_type := Internal; request_type := Blocking;
     output := empty_output; action_metadata := error_metadata |}.

End Examples.

(* ================================================================= *)
(** * Loading the modules *)

(** [std::string::find] and [std::string::substr(0, pos)]; [None] stands
    for [npos]. *)
Definition find (s pattern : string) : option nat := String.index 0 pattern s.

Definition substr_to (s : string) (pos : option nat) : string :=
  match pos with
  | Some n => String.substring 0 n s
  | None => s
  end.

(** The key under which [loadModulesConfiguration] stores the content of a
    configuration file, from the stem of the file's name. *)
Definition config_module_name (file_name : string) : string :=
  let pos_suffix := find file_name ".cfg" in
  substr_to file_name pos_suffix.

(** An entry of the modules directory, as [loadExternalModulesFrom] reads
    it: whether it is a directory and, for its canonical path (which
    [fs::canonical] returns or fails to), the path, its extension and its
    stem. *)
Record CanonicalPath : Type := {
  path_string : string;
  extension : string;
  stem : string
}.

Record DirectoryEntry : Type := {
  is_directory : bool;
  canonical : result CanonicalPath
}.

Section loading.

(** The constructors of [ExternalModule] and its [validateConfiguration]
    are defined in external_module.cc, and the modules [Echo] and [Status]
    in their own files, none of which is among the sources. *)
Variable ExternalModule_new : string -> option JsonContainer -> result Module_.
Variable validateConfiguration : Module_ -> result unit.
Variable Echo : Module_.
Variable Status : Module_.

Definition loadInternalModules (modules_ : gmap string Module_)
  : gmap string Module_ :=
  let modules_ := <["echo" := Echo]> modules_ in
  let modules_ := <["ping" := Ping.Ping]> modules_ in
  let modules_ := <["status" := Status]> modules_ in
  modules_.

(** The body of the [try] block of [loadExternalModulesFrom]: the module
    built from the file, configured when [modules_config_] has an entry
    under the stem. *)
Definition load_module (modules_config_ : gmap string JsonContainer)
           (f_p : CanonicalPath) : result Module_ :=
  match modules_config_ !! stem f_p with
  | Some config =>
      e_m ← ExternalModule_new (path_string f_p) (Some config);
      _ ← validateConfiguration e_m;
      Return e_m
  | None => ExternalModule_new (path_string f_p) None
  end.

(** The loop of [loadExternalModulesFrom] over the entries of the
    directory (the branch for systems other than Windows: a module file
    has no extension).  Whatever the [try] block throws is logged and the
    loop goes on; [fs::canonical] is called outside of it. *)
Fixpoint load_entries (modules_config_ : gmap string JsonContainer)
         (entries : list DirectoryEntry) (modules_ : gmap string Module_)
  : result (gmap string Module_) :=
  match entries with
  | [] => Return modules_
  | f :: rest =>
      if negb (is_directory f) then
        f_p ← canonical f;
        if empty (extension f_p) then
          match load_module modules_config_ f_p with
          | Return e_m =>
              load_entries modules_config_ rest
                (<[module_name e_m := e_m]> modules_)
          | Throw _ => load_entries modules_config_ rest modules_
          end
        else load_entries modules_config_ rest modules_
      else load_entries modules_config_ rest modules_
  end.

(** What the file system shows of the modules directory. *)
Record ModulesDirectory : Type := {
  exists_as_directory : bool;       (* fs::is_directory(dir_path) *)
  entries : list DirectoryEntry     (* fs::directory_iterator(dir_path) *)
}.

Definition loadExternalModulesFrom (modules_config_ : gmap string JsonContainer)
           (dir : ModulesDirectory) (modules_ : gmap string Module_)
  : result (gmap string Module_) :=
  if exists_as_directory dir
  then load_entries modules_config_ (entries dir) modules_
  else Return modules_.

(** The constructor of [RequestProcessor], after
    [loadModulesConfiguration]: [modules_config_] is what that call has
    stored, and [modules_dir] is the directory named by the
    configuration of the agent together with what the file system shows
    of it. *)
Definition RequestProcessor_new (spool_dir modules_dir : string)
           (dir : ModulesDirectory) (modules_config_ : gmap string JsonContainer)
  : result RequestProcessor :=
  let modules_ := loadInternalModules ∅ in
  modules_ ← (if negb (empty modules_dir)
              then loadExternalModulesFrom modules_config_ dir modules_
              else Return modules_);
  Return {| spool_path_ := spool_dir; modules_ := modules_ |}.

(** The module an entry of the directory registers, if it registers
    one. *)
Definition registers (modules_config_ : gmap string JsonContainer)
           (f : DirectoryEntry) (m : Module_) : Prop :=
  is_directory f = false
  /\ exists f_p,
       canonical f = Return f_p
       /\ extension f_p = ""
       /\ load_module modules_config_ f_p = Return m.

End loading.

(** The loop of [logLoadedModules] over the actions of one module: the
    text and the list of actions of the log line. *)
Definition add_action (state : string * string) (action : string)
  : string * string :=
  let '(txt, actions_list) := state in
  let '(txt, actions_list) :=
    if empty actions_list then ("action", actions_list +:+ ": ")
    else (txt, actions_list +:+ ", ") in
  (txt, actions_list +:+ action).

Definition loaded_actions_text (actions : list string) : string * string :=
  foldl add_action ("found no action", "") actions.

(** The exceptions that [nonBlockingActionTask] catches around the
    execution of the action. *)
Definition caught_by_task (e : exn) : bool :=
  match e with
  | Module_ProcessingError _ | connection_error _ => true
  | _ => false
  end.

(* ================================================================= *)
(** * The claims that fail, as the specification states them *)

(** The claim of the specification about [toJSON], at one response and one
    response type: the object returned has exactly the keys of the wire
    shape of section 6. *)
Definition has_spec_wire_keys (r : ActionResponse)
           (response_type : R_T.ResponseType) : Prop :=
  forall j, toJSON r response_type = Return j ->
            forall k, k ∈ keys j <-> k ∈ spec_wire_keys response_type.

(** The claim about internal modules, at one processor and one request:
    the request is refused because the module supports only blocking
    requests. *)
Definition refused_as_blocking_only (this : RequestProcessor)
           (request : ActionRequest) : Prop :=
  validateRequestContent this request
  = Throw (RequestProcessor_Error
             ("the module '" +:+ module_ request
              +:+ "' supports only blocking PXP requests")).

(** The claim about request format errors, at one message: processRequest
    hands one PCP error to the connector, and nothing else. *)
Definition answered_by_PCP_error
           (ctor : RequestType -> ParsedChunks -> result ActionRequest)
           (env : Env) (this : RequestProcessor) (request_type : RequestType)
           (parsed_chunks : ParsedChunks) (w : World) : Prop :=
  exists id description endpoints,
    handed_to_connector
      (trace (snd (processRequest ctor env this request_type parsed_chunks
                     (forget_trace w))))
    = [PCPError id description endpoints].

(** The claim about the metadata file, at one run of the task: every
    write of the metadata file happens while the task holds the mutex of
    the transaction. *)
Definition written_under_mutex (env : Env) (module_ptr : Module_)
           (request : ActionRequest) (results_storage : ResultsStorage.t)
           (w : World) : Prop :=
  writes_under_mutex (transaction_id_ request)
    (ResultsStorage.metadata_file results_storage) false
    (task_events env module_ptr request results_storage w) = true.

(** The claim about the end of the task, at one run: the task removes the
    entry of the transaction from the table, releases the mutex of the
    transaction and sets the done flag. *)
Definition cleans_up (env : Env) (module_ptr : Module_)
           (request : ActionRequest) (results_storage : ResultsStorage.t)
           (w : World) : Prop :=
  MutexRemoved (transaction_id_ request)
    ∈ task_events env module_ptr request results_storage w
  /\ MutexUnlocked (transaction_id_ request)
    ∈ task_events env module_ptr request results_storage w
  /\ done (task_end env module_ptr request results_storage w) = true.

(** What a call of the connector leaves in the trace. *)
Definition send_event (env : Env) (m : message) : event :=
  match send_error env m with
  | Some _ => SendFailed m
  | None => Sent m
  end.

(** After a successful execution: the final response, handed to the
    connector when [notify] is set, and the error recorded when the
    connector fails. *)
Definition final_response (request : ActionRequest) (outcome : ActionOutcome)
  : message :=
  NonBlockingResponse request (results outcome) (transaction_id_ request).

Definition final_send (env : Env) (request : ActionRequest)
           (outcome : ActionOutcome) (notify : bool) : list event :=
  if notify then [send_event env (final_response request outcome)] else [].

Definition final_exec_error (env : Env) (request : ActionRequest)
           (outcome : ActionOutcome) (notify : bool) : string :=
  if notify then
    match send_error env (final_response request outcome) with
    | Some w => "Failed to send non blocking response: " +:+ w +:+ LF
    | None => ""
    end
  else "".

(** What Results Storage writes when it is set up for a request, and the
    storage the task is given. *)
Definition initial_metadata (request : ActionRequest) : JsonContainer :=
  let m := lth_jc.empty_object in
  let m := set m "module" (JString (module_ request)) in
  let m := set m "action" (JString (action_ request)) in
  let m := set m "completed" (JBool false) in
  let m := set m "duration" (JString "0 s") in
  if negb (empty (params_txt_ request))
  then set m "input" (JString (params_txt_ request))
  else set m "input" (JString "none").

Definition storage_for (request : ActionRequest) : ResultsStorage.t :=
  {| ResultsStorage.module := module_ request;
     ResultsStorage.action := action_ request;
     ResultsStorage.metadata_file :=
       path_append (results_dir_ request) "metadata";
     ResultsStorage.action_metadata := initial_metadata request |}.

Definition storage_events (request : ActionRequest) (w : World) : list event :=
  (if bool_decide (results_dir_ request ∈ directories w) then []
   else [DirectoriesCreated (results_dir_ request)])
  ++ [FileWritten (path_append (results_dir_ request) "metadata")
        (initial_metadata request);
      AccessLocked]
  ++ (if bool_decide (transaction_id_ request ∈ cache w) then []
      else [MutexAdded (transaction_id_ request)])
  ++ [AccessUnlocked].

(** How the task ends when it holds a lock pointer. *)
Definition closing_events (transaction_id : string) : list event :=
  [AccessLocked; MutexRemoved transaction_id; AccessUnlocked;
   MutexUnlocked transaction_id; DoneSet true].

(* ================================================================= *)
(** What a validated blocking request hands to the connector: the
    response, followed by a PXP error when the response cannot be sent;
    or a PXP error when the action throws. *)
Definition blocking_answer (env : Env) (m : Module_) (request : ActionRequest)
  : list message :=
  match executeAction m request with
  | Return outcome =>
      BlockingResponse request (results outcome)
      :: match send_error env (BlockingResponse request (results outcome)) with
         | Some description => [PXPError request description]
         | None => []
         end
  | Throw e => [PXPError request (what e)]
  end.

(** The world after Results Storage has been set up for a request, with
    the trace [tr]. *)
Definition world_with_storage (request : ActionRequest) (w : World)
           (tr : list event) : World :=
  {| cache := if bool_decide (transaction_id_ request ∈ cache w)
              then cache w else {[transaction_id_ request]} ∪ cache w;
     directories := if bool_decide (results_dir_ request ∈ directories w)
                    then directories w
                    else {[results_dir_ request]} ∪ directories w;
     files := <[ResultsStorage.metadata_file (storage_for request)
                 := initial_metadata request]> (files w);
     trace := tr |}.

(** More examples. *)
Module Fixtures.

(** The spool cannot be written to. *)
Definition no_spool : Env :=
  {| send_error := fun _ => None;
     create_directories_error := fun _ => Some "permission denied";
     atomic_write_error := fun _ => None;
     thread_error := None;
     thread_started := false;
     elapsed_seconds := "0.000000" |}.

(** The connection is down. *)
Definition offline : Env :=
  {| send_error := fun _ => Some "connection closed";
     create_directories_error := fun _ => None;
     atomic_write_error := fun _ => None;
     thread_error := None;
     thread_started := false;
     elapsed_seconds := "0.000000" |}.

(** No thread can be started: the constructor of the thread throws. *)
Definition no_threads : Env :=
  {| send_error := fun _ => None;
     create_directories_error := fun _ => None;
     atomic_write_error := fun _ => None;
     thread_error := Some (std_exception "resource unavailable");
     thread_started := false;
     elapsed_seconds := "0.000000" |}.

(** The metadata file cannot be written. *)
Definition full_disk : Env :=
  {| send_error := fun _ => None;
     create_directories_error := fun _ => None;
     atomic_write_error := fun _ => Some (std_exception "no space left on device");
     thread_error := None;
     thread_started := false;
     elapsed_seconds := "0.000000" |}.

Definition reverse_module : Module_ := Examples.reverse (Return Examples.anodaram).

Definition reverse_agent : RequestProcessor :=
  Examples.processor [Ping.Ping; reverse_module].

(** A ping whose sender_timestamp is a number. *)
Definition bad_ping_chunks : ParsedChunks :=
  Examples.chunks_with
    [("module", JString "ping"); ("action", JString "ping");
     ("params", JObject [("sender_timestamp", JInt 0)])]
    [].

(** A modules directory with a subdirectory, a module that loads, a file
    with an extension and a module that does not load. *)
Definition file (path extension_ stem_ : string) : DirectoryEntry :=
  {| is_directory := false;
     canonical := Return {| path_string := path; extension := extension_;
                            stem := stem_ |} |}.

Definition modules_directory : ModulesDirectory :=
  {| exists_as_directory := true;
     entries :=
       [ {| is_directory := true;
            canonical := Return {| path_string := "/modules/lib";
                                   extension := ""; stem := "lib" |} |};
         file "/modules/reverse" "" "reverse";
         file "/modules/notes.txt" ".txt" "notes";
         file "/modules/broken" "" "broken" ] |}.

Definition ExternalModule_new (path : string) (config : option JsonContainer)
  : result Module_ :=
  if String.eqb path "/modules/reverse" then Return reverse_module
  else Throw (std_exception "invalid metadata").

Definition validateConfiguration (m : Module_) : result unit := Return tt.

Definition Echo : Module_ :=
  {| module_name := "echo"; type := Internal; actions := ["echo"];
     input_validator_ := ∅; output_validator_ := ∅;
     executeAction := fun request =>
       Return (Ping.outcome_of_results (params_ request)) |}.

Definition Status : Module_ :=
  {| module_name := "status"; type := Internal; actions := ["query"];
     input_validator_ := ∅; output_validator_ := ∅;
     executeAction := fun _ => Throw (request_processing_error "no such job") |}.

(** A ping whose envelope has no id. *)
Definition anonymous_chunks : ParsedChunks :=
  {| envelope := [("sender", JString "S"); ("transaction_id", JString "t1")];
     has_data := true; data_type := Json;
     data := Examples.ping_data; debug := []; num_invalid_debug := 0 |}.

(** Pings whose debug chunk has no hops, and hops that are not an array. *)
Definition ping_without_hops : ActionRequest :=
  Examples.request_of Blocking "ping" "ping" false
    (Examples.chunks_with Examples.ping_data [[("server", JString "A")]]).


(** An external module that registered no schema for its action. *)
Definition unchecked : Module_ :=
  {| module_name := "unchecked"; type := External; actions := ["run"];
     input_validator_ := ∅; output_validator_ := ∅;
     executeAction := fun _ => Return Examples.anodaram |}.

Definition unchecked_chunks : ParsedChunks :=
  Examples.chunks_with (Examples.data_for "unchecked" "run") [].

End Fixtures.

(** * Properties *)

(** ** JSON containers *)

Lemma lookup_member_set_eq c key v :
  lookup_member key (set c key v) = Some v.
Proof.
  induction c as [|[k x] rest IH]; simpl.
  - by rewrite String.eqb_refl.
  - destruct (String.eqb k key) eqn:E; simpl; rewrite E; done.
Qed.

Lemma lookup_member_set_ne c key key' v :
  key ≠ key' -> lookup_member key' (set c key v) = lookup_member key' c.
Proof.
  intros Hne. induction c as [|[k x] rest IH]; simpl.
  - destruct (String.eqb key key') eqn:E; [|done].
    apply String.eqb_eq in E. done.
  - destruct (String.eqb k key) eqn:E; simpl.
    + apply String.eqb_eq in E. subst k.
      destruct (String.eqb key key') eqn:E'; [|done].
      apply String.eqb_eq in E'. done.
    + destruct (String.eqb k key'); done.
Qed.

Lemma get_string_Return c key s :
  get_string c key = Return s <-> lookup_member key c = Some (JString s).
Proof.
  unfold get_string, get_entry.
  destruct (lookup_member key c) as [[]|]; simpl; split; congruence.
Qed.

Lemma get_string_set_ne c key key' v :
  key ≠ key' -> get_string (set c key v) key' = get_string c key'.
Proof.
  intros Hne. unfold get_string, get_entry.
  by rewrite lookup_member_set_ne.
Qed.

(** ** The action metadata schema *)

Lemma isValidActionMetadata_conforms m :
  isValidActionMetadata m = Return (conforms action_metadata_schema m).
Proof.
  unfold isValidActionMetadata, validate.
  change (getActionMetadataValidator !! ACTION_METADATA_SCHEMA)
    with (Some action_metadata_schema).
  cbv beta iota.
  destruct (conforms action_metadata_schema m); reflexivity.
Qed.

Lemma conforms_required_string m key :
  {| field := key; PCPClient.type := T_String; required := true |}
    ∈ constraints action_metadata_schema ->
  conforms action_metadata_schema m = true ->
  exists s, get_string m key = Return s.
Proof.
  intros Hin Hc. unfold conforms in Hc.
  rewrite forallb_forall in Hc.
  apply list_elem_of_In in Hin. specialize (Hc _ Hin).
  unfold satisfies in Hc. simpl in Hc.
  unfold get_string, get_entry.
  destruct (lookup_member key m) as [[]|]; simpl in *; try done.
  eauto.
Qed.

Lemma conforms_optional_string m key :
  {| field := key; PCPClient.type := T_String; required := false |}
    ∈ constraints action_metadata_schema ->
  conforms action_metadata_schema m = true ->
  includes m key = true ->
  exists s, get_string m key = Return s.
Proof.
  intros Hin Hc Hi. unfold conforms in Hc.
  rewrite forallb_forall in Hc.
  apply list_elem_of_In in Hin. specialize (Hc _ Hin).
  unfold satisfies in Hc. simpl in Hc.
  unfold get_string, get_entry, includes in *.
  destruct (lookup_member key m) as [[]|]; simpl in *; try done.
  eauto.
Qed.

(** ** Action Response *)

Ltac distinct_keys := intros ?; discriminate.

Lemma derived_from_request_params r0 r :
  derived_from r0 r ->
  get_string (action_metadata r) REQUEST_PARAMS
  = get_string (action_metadata r0) REQUEST_PARAMS.
Proof.
  induction 1 as [|r status _ IH|now r res err _ IH|now r err _ IH];
    [done| | |]; rewrite <- IH; simpl.
  - by rewrite get_string_set_ne by distinct_keys.
  - destruct (empty err); simpl;
      by rewrite !get_string_set_ne by distinct_keys.
  - by rewrite !get_string_set_ne by distinct_keys.
Qed.

Lemma getMetadataFromRequest_request_params now request :
  get_string (getMetadataFromRequest now request) REQUEST_PARAMS
  = Return (if empty (params_txt_ request) then "none"
            else params_txt_ request).
Proof. reflexivity. Qed.

(** C10: the metadata built from a request whose params text is empty
    records "none" as request_params, and the text itself when it is not
    empty; this holds for the metadata itself and for every response
    reached from the one constructed from the request by setStatus,
    setValidResultsAndEnd and setBadResultsAndEnd. *)
Theorem request_params_none_for_empty now module_type_ request r :
  derived_from (ActionResponse_of_request now module_type_ request) r ->
  (params_txt_ request = "" ->
     get_string (getMetadataFromRequest now request) REQUEST_PARAMS = Return "none"
     /\ get_string (action_metadata r) REQUEST_PARAMS = Return "none")
  /\ (params_txt_ request <> "" ->
     get_string (getMetadataFromRequest now request) REQUEST_PARAMS
       = Return (params_txt_ request)
     /\ get_string (action_metadata r) REQUEST_PARAMS
       = Return (params_txt_ request)).
Proof.
  intros Hd. apply derived_from_request_params in Hd. rewrite Hd. simpl.
  rewrite getMetadataFromRequest_request_params.
  split; intros H; destruct (params_txt_ request); done.
Qed.

Lemma request_params_none_for_empty_witness :
  (get_string (getMetadataFromRequest "now" Examples.ping_request) REQUEST_PARAMS
     = Return "none"
   /\ get_string
        (action_metadata
           (setBadResultsAndEnd "later"
              (ActionResponse_of_request "now" Internal Examples.ping_request)
              "no debug entry")) REQUEST_PARAMS = Return "none")
  /\ get_string (getMetadataFromRequest "now" (Examples.reverse_request true))
       REQUEST_PARAMS
     = Return (params_txt_ (Examples.reverse_request true)).
Proof.
  split.
  - refine (proj1 (request_params_none_for_empty "now" Internal
                     Examples.ping_request _ _) _).
    + apply derived_setBadResultsAndEnd, derived_here.
    + reflexivity.
  - refine (proj1 (proj2 (request_params_none_for_empty "now" External
                     (Examples.reverse_request true) _ (derived_here _)) _)).
    vm_compute. discriminate.
Defined.

(** C9: the constructor from a completed outcome returns a response only
    for metadata that satisfies the action-metadata schema, and throws
    Error "invalid action metadata" whenever valid() is false. *)
Theorem constructed_response_has_valid_metadata
        module_type_ request_type_ output_ action_metadata_ :
  (forall r,
     ActionResponse_of_outcome module_type_ request_type_ output_ action_metadata_
       = Return r ->
     action_metadata r = action_metadata_
     /\ valid r = Return true
     /\ conforms action_metadata_schema (action_metadata r) = true)
  /\ (valid {| module_type := module_type_; request_type := request_type_;
               output := output_; action_metadata := action_metadata_ |}
        = Return false ->
      ActionResponse_of_outcome module_type_ request_type_ output_ action_metadata_
        = Throw (ActionResponse_Error "invalid action metadata")).
Proof.
  unfold ActionResponse_of_outcome, valid. simpl.
  rewrite isValidActionMetadata_conforms. simpl.
  destruct (conforms action_metadata_schema action_metadata_) eqn:E; simpl.
  - split; [|done]. intros r [= <-]. simpl.
    by rewrite isValidActionMetadata_conforms, E.
  - split; done.
Qed.

Lemma constructed_response_has_valid_metadata_witness :
  (exists r,
     ActionResponse_of_outcome Internal Blocking empty_output
       Examples.error_metadata = Return r
     /\ valid r = Return true)
  /\ ActionResponse_of_outcome Internal Blocking empty_output
       [("requester", JString "S")]
     = Throw (ActionResponse_Error "invalid action metadata").
Proof.
  split.
  - eexists. split; [reflexivity|].
    refine (proj1 (proj2 (proj1 (constructed_response_has_valid_metadata
              Internal Blocking empty_output Examples.error_metadata) _ _))).
    reflexivity.
  - refine (proj2 (constructed_response_has_valid_metadata
              Internal Blocking empty_output [("requester", JString "S")]) _).
    reflexivity.
Defined.

Lemma valid_for_true r response_type :
  valid_for r response_type = Return true ->
  conforms action_metadata_schema (action_metadata r) = true
  /\ match response_type with
     | R_T.Blocking | R_T.NonBlocking => includes (action_metadata r) RESULTS = true
     | R_T.StatusOutput => True
     | R_T.RPCError => includes (action_metadata r) EXECUTION_ERROR = true
     end.
Proof.
  unfold valid_for, valid. rewrite isValidActionMetadata_conforms. simpl.
  destruct (conforms action_metadata_schema (action_metadata r)); simpl;
    [|discriminate].
  destruct response_type; intros H; split; try done; congruence.
Qed.

Lemma required_string_keys key :
  key ∈ [REQUESTER; MODULE; ACTION; REQUEST_PARAMS; TRANSACTION_ID;
         REQUEST_ID; START; STATUS] ->
  {| field := key; PCPClient.type := T_String; required := true |}
    ∈ constraints action_metadata_schema.
Proof.
  intros H. repeat (apply elem_of_cons in H as [->|H]; [set_solver|]).
  by apply elem_of_nil in H.
Qed.

(** C2, as the specification states it, fails for RPCError: the object
    returned for the response built from a failed ping carries
    transaction_id besides id and description. *)
Lemma toJSON_RPCError_has_transaction_id :
  toJSON Examples.error_response R_T.RPCError
  = Return [("transaction_id", JString "t1"); ("id", JString "req-1");
            ("description", JString "no debug entry")]
  /\ ~ has_spec_wire_keys Examples.error_response R_T.RPCError.
Proof.
  split; [reflexivity|].
  intros H. specialize (H _ eq_refl "transaction_id"). simpl in H.
  destruct H as [H _].
  assert (Hin : "transaction_id" ∈ ["transaction_id"; "id"; "description"])
    by set_solver.
  specialize (H Hin).
  repeat (apply elem_of_cons in H as [H|H]; [discriminate H|]).
  by apply elem_of_nil in H.
Qed.

(** C2, amended: whenever toJSON returns an object, its keys are
    transaction_id and results for Blocking and NonBlocking,
    transaction_id, status, stdout, stderr and exitcode for StatusOutput,
    and transaction_id, id and description for RPCError (the wire shape of
    section 6 with transaction_id added); and it does return an object for
    every response that is valid for the response type. *)
Theorem toJSON_has_exactly_its_keys r response_type :
  (forall j,
     toJSON r response_type = Return j ->
     keys j = match response_type with
              | R_T.RPCError => "transaction_id" :: spec_wire_keys R_T.RPCError
              | _ => spec_wire_keys response_type
              end)
  /\ (valid_for r response_type = Return true ->
      exists j, toJSON r response_type = Return j).
Proof.
  split.
  - intros j. unfold toJSON.
    destruct (get_string (action_metadata r) TRANSACTION_ID) as [tid|]; simpl;
      [|discriminate].
    destruct response_type; simpl.
    + destruct (get_container (action_metadata r) RESULTS); simpl;
        intros [= <-]; reflexivity.
    + destruct (get_container (action_metadata r) RESULTS); simpl;
        intros [= <-]; reflexivity.
    + destruct (get_string (action_metadata r) STATUS); simpl;
        intros [= <-]; reflexivity.
    + destruct (get_string (action_metadata r) REQUEST_ID); simpl;
        [|discriminate].
      destruct (get_string (action_metadata r) EXECUTION_ERROR); simpl;
        intros [= <-]; reflexivity.
  - intros Hv. apply valid_for_true in Hv as [Hc Hr].
    destruct (conforms_required_string _ TRANSACTION_ID
                (required_string_keys TRANSACTION_ID ltac:(set_solver)) Hc) as [tid Htid].
    unfold toJSON. rewrite Htid. simpl.
    destruct response_type; simpl.
    + unfold get_container, get_entry, includes in *.
      destruct (lookup_member RESULTS (action_metadata r)); [eauto|done].
    + unfold get_container, get_entry, includes in *.
      destruct (lookup_member RESULTS (action_metadata r)); [eauto|done].
    + destruct (conforms_required_string _ STATUS
                  (required_string_keys STATUS ltac:(set_solver)) Hc) as [st ->].
      simpl. eauto.
    + destruct (conforms_required_string _ REQUEST_ID
                  (required_string_keys REQUEST_ID ltac:(set_solver)) Hc) as [rid ->].
      simpl.
      destruct (conforms_optional_string _ EXECUTION_ERROR
                  ltac:(set_solver) Hc Hr) as [d ->].
      simpl. eauto.
Qed.

Lemma toJSON_has_exactly_its_keys_witness :
  (exists j, toJSON Examples.error_response R_T.RPCError = Return j
             /\ keys j = ["transaction_id"; "id"; "description"])
  /\ (exists j, toJSON Examples.error_response R_T.StatusOutput = Return j
                /\ keys j = ["transaction_id"; "status"; "stdout"; "stderr";
                             "exitcode"]).
Proof.
  split.
  - destruct (proj2 (toJSON_has_exactly_its_keys Examples.error_response
                       R_T.RPCError) eq_refl) as [j Hj].
    exists j. split; [exact Hj|].
    exact (proj1 (toJSON_has_exactly_its_keys Examples.error_response
                    R_T.RPCError) j Hj).
  - destruct (proj2 (toJSON_has_exactly_its_keys Examples.error_response
                       R_T.StatusOutput) eq_refl) as [j Hj].
    exists j. split; [exact Hj|].
    exact (proj1 (toJSON_has_exactly_its_keys Examples.error_response
                    R_T.StatusOutput) j Hj).
Defined.

(** ** Ping *)

Lemma get_vector_of_objects c key items :
  lookup_member key c = Some (JArray (map JObject items)) ->
  lth_jc.get_vector c key = Return items.
Proof.
  intros H. unfold lth_jc.get_vector, get_entry. rewrite H. simpl. clear H.
  induction items as [|x rest IH]; simpl; [done|]. by rewrite IH.
Qed.


Lemma as_objects_cases items :
  (exists hops, items = map JObject hops /\ as_objects items = Return hops)
  \/ ((forall hops, items <> map JObject hops)
      /\ exists description,
           as_objects items = Throw (data_type_error description)).
Proof.
  induction items as [|x rest IH].
  - left. by exists [].
  - assert (Hno : forall v : json,
              (forall ms, v <> JObject ms) ->
              forall hops, v :: rest <> map JObject hops).
    { intros v Hv [|h hops]; [discriminate|]. intros [= -> _]. by eapply Hv. }
    destruct x as [| | | |?|ms];
      try (right; split; [by apply Hno|by eexists]).
    simpl. destruct IH as [(hops & -> & ->)|(Hn & d & ->)].
    + left. by exists (ms :: hops).
    + right. split; [|by eexists].
      intros [|h hops]; [discriminate|]. intros [= _ H]. by eapply Hn.
Qed.

(** X30: ping on every request.  Without a debug chunk it fails with
    the request processing error "no debug entry"; when the first debug
    chunk has an array of objects under hops it returns the object with
    the single entry request_hops holding that array; when the chunk has
    no hops entry it fails with the data key error of the read, and when
    hops is not an array of objects with its data type error.  The
    handler around the read turns a parse error, and nothing else, into
    the request processing error "debug entry is not valid JSON"; the
    read of the container throws none, so that ping fails with a request
    processing error only when there is no debug chunk. *)
Theorem ping_on_every_debug_entry request :
  (debug (parsed_chunks_ request) = [] ->
   Ping.ping lth_jc.get_vector request
   = Throw (request_processing_error "no debug entry"))
  /\ (forall debug_entry rest hops,
        debug (parsed_chunks_ request) = debug_entry :: rest ->
        lookup_member "hops" debug_entry = Some (JArray (map JObject hops)) ->
        Ping.ping lth_jc.get_vector request
        = Return [("request_hops", JArray (map JObject hops))])
  /\ (forall debug_entry rest,
        debug (parsed_chunks_ request) = debug_entry :: rest ->
        lookup_member "hops" debug_entry = None ->
        exists description,
          Ping.ping lth_jc.get_vector request
          = Throw (data_key_error description))
  /\ (forall debug_entry rest v,
        debug (parsed_chunks_ request) = debug_entry :: rest ->
        lookup_member "hops" debug_entry = Some v ->
        (forall hops, v <> JArray (map JObject hops)) ->
        exists description,
          Ping.ping lth_jc.get_vector request
          = Throw (data_type_error description))
  /\ (forall get_hops debug_entry rest e,
        debug (parsed_chunks_ request) = debug_entry :: rest ->
        get_hops debug_entry "hops" = Throw e ->
        Ping.ping get_hops request
        = Throw match e with
                | data_parse_error _ =>
                    request_processing_error "debug entry is not valid JSON"
                | _ => e
                end)
  /\ (forall description,
        Ping.ping lth_jc.get_vector request
        = Throw (request_processing_error description) ->
        description = "no debug entry"
        /\ debug (parsed_chunks_ request) = []).
Proof.
  unfold Ping.ping. split; [|split; [|split; [|split; [|split]]]].
  - intros ->. reflexivity.
  - intros debug_entry rest hops -> H.
    rewrite (get_vector_of_objects _ _ _ H). reflexivity.
  - intros debug_entry rest -> H.
    unfold lth_jc.get_vector, get_entry. rewrite H. by eexists.
  - intros debug_entry rest v -> H Hv.
    unfold lth_jc.get_vector, get_entry. rewrite H. simpl.
    destruct v as [| | | |items|]; try (by eexists).
    destruct (as_objects_cases items) as [(hops & -> & _)|(_ & d & ->)].
    + by destruct (Hv hops).
    + by eexists.
  - intros get_hops debug_entry rest e -> ->. by destruct e.
  - intros description.
    destruct (debug (parsed_chunks_ request)) as [|debug_entry rest].
    + by intros [= <-].
    + unfold lth_jc.get_vector, get_entry.
      destruct (lookup_member "hops" debug_entry) as [v|]; simpl;
        [|discriminate].
      destruct v as [| | | |items|]; try discriminate.
      destruct (as_objects_cases items) as [(hops & -> & ->)|(_ & d & ->)];
        discriminate.
Qed.

Lemma ping_on_every_debug_entry_witness :
  Ping.ping lth_jc.get_vector Examples.ping_request
  = Return [("request_hops", JArray [JObject [("server", JString "A")]])]
  /\ Ping.ping lth_jc.get_vector
       (Examples.request_of Blocking "ping" "ping" false
          Examples.ping_chunks_no_debug)
     = Throw (request_processing_error "no debug entry")
  /\ exists description,
       Ping.ping lth_jc.get_vector Fixtures.ping_without_hops
       = Throw (data_key_error description).
Proof.
  split; [|split].
  - exact (proj1 (proj2 (ping_on_every_debug_entry Examples.ping_request))
             _ _ Examples.hops1 eq_refl eq_refl).
  - exact (proj1 (ping_on_every_debug_entry
                    (Examples.request_of Blocking "ping" "ping" false
                       Examples.ping_chunks_no_debug)) eq_refl).
  - exact (proj1 (proj2 (proj2 (ping_on_every_debug_entry
                                  Fixtures.ping_without_hops)))
             _ _ eq_refl eq_refl).
Defined.


(** ** Request validation *)

Lemma send_keeps_the_spool env m w :
  directories (snd (send env m w)) = directories w
  /\ files (snd (send env m w)) = files w
  /\ cache (snd (send env m w)) = cache w
  /\ handed_to_connector (trace (snd (send env m w)))
     = handed_to_connector (trace w) ++ [m].
Proof.
  unfold send. destruct (send_error env m); simpl;
    unfold handed_to_connector; rewrite omap_app; done.
Qed.

(** A request that fails validation is answered by one PXP error carrying
    the description of the failure, and nothing else happens. *)
Lemma processRequest_invalid ctor env this request_type parsed_chunks
      request description w :
  ctor request_type parsed_chunks = Return request ->
  validateRequestContent this request
    = Throw (RequestProcessor_Error description) ->
  processRequest ctor env this request_type parsed_chunks w
  = sendPXPError env request description w.
Proof.
  intros Hc Hv.
  unfold processRequest, try_catch, bind, pure, sendPXPError at 1.
  rewrite Hc, Hv. simpl.
  unfold sendPXPError.
  destruct (send env (PXPError request description) w) as [[[]|e] w'] eqn:E;
    [reflexivity|].
  unfold send in E. destruct (send_error env _); simpl in E.
  - injection E as <- <-. reflexivity.
  - discriminate E.
Qed.

Lemma validate_unknown_module this request :
  modules_ this !! module_ request = None ->
  validateRequestContent this request
  = Throw (RequestProcessor_Error ("unknown module: " +:+ module_ request)).
Proof.
  intros H. unfold validateRequestContent, modules_at. rewrite H. reflexivity.
Qed.

Lemma validate_unknown_action this request m :
  modules_ this !! module_ request = Some m ->
  hasAction m (action_ request) = false ->
  validateRequestContent this request
  = Throw (RequestProcessor_Error
             ("unknown action '" +:+ action_ request +:+ "' for module '"
              +:+ module_ request +:+ "'")).
Proof.
  intros H Ha. unfold validateRequestContent, modules_at. rewrite H. simpl.
  rewrite Ha. reflexivity.
Qed.

Lemma validate_internal_non_blocking this request m :
  modules_ this !! module_ request = Some m ->
  hasAction m (action_ request) = true ->
  type m = Internal ->
  type_ request = NonBlocking ->
  validateRequestContent this request
  = Throw (RequestProcessor_Error
             ("the module '" +:+ module_ request
              +:+ "' supports only blocking PXP requests")).
Proof.
  intros H Ha Ht Hr. unfold validateRequestContent, modules_at.
  rewrite H. simpl. rewrite Ha. simpl. rewrite Ht, Hr. reflexivity.
Qed.

(** C6: a request naming a module that is not in the registry is refused
    with "unknown module: X", whatever its action; one naming a module
    that lacks the action is refused with "unknown action 'A' for module
    'M'"; in both cases processRequest answers with that PXP error and
    does nothing else. *)
Theorem unknown_module_then_unknown_action
        ctor env this request_type parsed_chunks request w :
  ctor request_type parsed_chunks = Return request ->
  (modules_ this !! module_ request = None ->
   validateRequestContent this request
   = Throw (RequestProcessor_Error ("unknown module: " +:+ module_ request))
   /\ processRequest ctor env this request_type parsed_chunks w
      = sendPXPError env request ("unknown module: " +:+ module_ request) w)
  /\ (forall m,
        modules_ this !! module_ request = Some m ->
        hasAction m (action_ request) = false ->
        validateRequestContent this request
        = Throw (RequestProcessor_Error
                   ("unknown action '" +:+ action_ request
                    +:+ "' for module '" +:+ module_ request +:+ "'"))
        /\ processRequest ctor env this request_type parsed_chunks w
           = sendPXPError env request
               ("unknown action '" +:+ action_ request
                +:+ "' for module '" +:+ module_ request +:+ "'") w).
Proof.
  intros Hc. split.
  - intros H. pose proof (validate_unknown_module _ _ H) as Hv.
    split; [exact Hv|]. by apply processRequest_invalid.
  - intros m H Ha. pose proof (validate_unknown_action _ _ _ H Ha) as Hv.
    split; [exact Hv|]. by apply processRequest_invalid.
Qed.

Lemma unknown_module_then_unknown_action_witness :
  (exists request,
     trace (snd (processRequest ActionRequest_new Examples.calm Examples.agent
                   Blocking
                   (Examples.chunks_with (Examples.data_for "nope" "x") [])
                   fresh_world))
     = [Sent (PXPError request "unknown module: nope")])
  /\ (exists request,
        trace (snd (processRequest ActionRequest_new Examples.calm Examples.agent
                      Blocking
                      (Examples.chunks_with (Examples.data_for "ping" "x") [])
                      fresh_world))
        = [Sent (PXPError request "unknown action 'x' for module 'ping'")]).
Proof.
  split.
  - eexists.
    rewrite (proj2 (proj1 (unknown_module_then_unknown_action
               ActionRequest_new Examples.calm Examples.agent Blocking
               (Examples.chunks_with (Examples.data_for "nope" "x") [])
               _ fresh_world eq_refl) eq_refl)).
    reflexivity.
  - eexists.
    rewrite (proj2 (proj2 (unknown_module_then_unknown_action
               ActionRequest_new Examples.calm Examples.agent Blocking
               (Examples.chunks_with (Examples.data_for "ping" "x") [])
               _ fresh_world eq_refl) Ping.Ping eq_refl eq_refl)).
    reflexivity.
Defined.

(** C5, as the specification states it, fails: a non-blocking request that
    names the internal module ping and an action ping does not have is
    refused for the unknown action, not for being non-blocking. *)
Lemma internal_non_blocking_unknown_action :
  let request := Examples.request_of NonBlocking "ping" "nope" false
                   Examples.ping_chunks in
  modules_ Examples.agent !! module_ request = Some Ping.Ping
  /\ type Ping.Ping = Internal
  /\ type_ request = NonBlocking
  /\ validateRequestContent Examples.agent request
     = Throw (RequestProcessor_Error "unknown action 'nope' for module 'ping'")
  /\ ~ refused_as_blocking_only Examples.agent request.
Proof.
  repeat split. intros H. discriminate H.
Qed.

(** C5, amended: a non-blocking request that names an internal module and
    one of its actions is refused with "the module 'M' supports only
    blocking PXP requests"; processRequest answers with that PXP error and
    does nothing else: no directory is created, no file is written and
    the results-mutex table is left as it was. *)
Theorem internal_module_only_blocking
        ctor env this request_type parsed_chunks request m w :
  ctor request_type parsed_chunks = Return request ->
  modules_ this !! module_ request = Some m ->
  type m = Internal ->
  hasAction m (action_ request) = true ->
  type_ request = NonBlocking ->
  refused_as_blocking_only this request
  /\ processRequest ctor env this request_type parsed_chunks w
     = sendPXPError env request
         ("the module '" +:+ module_ request
          +:+ "' supports only blocking PXP requests") w
  /\ directories (snd (processRequest ctor env this request_type parsed_chunks w))
     = directories w
  /\ files (snd (processRequest ctor env this request_type parsed_chunks w))
     = files w
  /\ cache (snd (processRequest ctor env this request_type parsed_chunks w))
     = cache w.
Proof.
  intros Hc H Ht Ha Hr.
  pose proof (validate_internal_non_blocking _ _ _ H Ha Ht Hr) as Hv.
  split; [exact Hv|].
  rewrite (processRequest_invalid _ env _ _ _ _ _ w Hc Hv).
  unfold sendPXPError.
  destruct (send_keeps_the_spool env
              (PXPError request
                 ("the module '" +:+ module_ request
                  +:+ "' supports only blocking PXP requests")) w)
    as (Hd & Hf & Hk & _).
  done.
Qed.

Lemma internal_module_only_blocking_witness :
  exists request,
    processRequest ActionRequest_new Examples.calm Examples.agent NonBlocking
      Examples.ping_chunks fresh_world
    = (Return tt,
       {| cache := ∅; directories := ∅; files := ∅;
          trace := [Sent (PXPError request
                      "the module 'ping' supports only blocking PXP requests")] |}).
Proof.
  eexists.
  rewrite (proj1 (proj2 (internal_module_only_blocking
             ActionRequest_new Examples.calm Examples.agent NonBlocking
             Examples.ping_chunks _ Ping.Ping fresh_world
             eq_refl eq_refl eq_refl eq_refl eq_refl))).
  reflexivity.
Defined.

(** C7, as the specification states it, fails for a format error that
    section 4.1 lists, an envelope without id: the handler reads id from
    the envelope, the read throws, and nothing is handed to the
    connector. *)
Lemma format_error_without_id_is_not_answered :
  ActionRequest_new Blocking Fixtures.anonymous_chunks
  = Throw (ActionRequest_Error "no id")
  /\ processRequest ActionRequest_new Examples.calm Examples.agent Blocking
       Fixtures.anonymous_chunks fresh_world
     = (Throw (data_key_error "unknown object entry with key: id"),
        fresh_world)
  /\ ~ answered_by_PCP_error ActionRequest_new Examples.calm Examples.agent
        Blocking Fixtures.anonymous_chunks fresh_world.
Proof.
  split; [reflexivity|]. split; [reflexivity|].
  intros (id & description & endpoints & H). vm_compute in H. discriminate H.
Qed.

(** C7, amended: when the construction of the ActionRequest fails with a
    request format error and the envelope has the strings id and sender,
    processRequest hands one PCP error to the connector, with that id,
    the description of the format error and the sender as its only
    endpoint, and does nothing else (no PXP error, no validation, no
    dispatch).  When the envelope has no string id, or has one but no
    string sender, the read of the entry throws, the exception leaves
    processRequest and nothing is handed to the connector. *)
Theorem format_error_answered_by_PCP_error
        ctor env this request_type parsed_chunks description w :
  ctor request_type parsed_chunks = Throw (ActionRequest_Error description) ->
  (forall id sender,
     get_string (envelope parsed_chunks) "id" = Return id ->
     get_string (envelope parsed_chunks) "sender" = Return sender ->
     processRequest ctor env this request_type parsed_chunks w
     = sendPCPError env id description [sender] w)
  /\ (forall e,
        get_string (envelope parsed_chunks) "id" = Throw e ->
        processRequest ctor env this request_type parsed_chunks w
        = (Throw e, w))
  /\ (forall id e,
        get_string (envelope parsed_chunks) "id" = Return id ->
        get_string (envelope parsed_chunks) "sender" = Throw e ->
        processRequest ctor env this request_type parsed_chunks w
        = (Throw e, w)).
Proof.
  intros Hc. unfold processRequest, try_catch, bind, pure. rewrite Hc. simpl.
  split; [|split].
  - intros id sender -> ->. reflexivity.
  - intros e ->. reflexivity.
  - intros id e -> ->. reflexivity.
Qed.

Lemma format_error_answered_by_PCP_error_witness :
  processRequest ActionRequest_new Examples.calm Examples.agent Blocking
    Examples.binary_chunks fresh_world
  = (Return tt,
     {| cache := ∅; directories := ∅; files := ∅;
        trace := [Sent (PCPError "req-1" "data is not in JSON format" ["S"])] |})
  /\ processRequest ActionRequest_new Examples.calm Examples.agent Blocking
       Fixtures.anonymous_chunks fresh_world
     = (Throw (data_key_error "unknown object entry with key: id"),
        fresh_world).
Proof.
  split.
  - rewrite (proj1 (format_error_answered_by_PCP_error ActionRequest_new
                      Examples.calm Examples.agent Blocking
                      Examples.binary_chunks "data is not in JSON format"
                      fresh_world eq_refl)
               "req-1" "S" eq_refl eq_refl).
    reflexivity.
  - exact (proj1 (proj2 (format_error_answered_by_PCP_error ActionRequest_new
                           Examples.calm Examples.agent Blocking
                           Fixtures.anonymous_chunks "no id" fresh_world
                           eq_refl))
             (data_key_error "unknown object entry with key: id") eq_refl).
Defined.

(** ** The non-blocking action task *)

Ltac run_model :=
  repeat progress
    (cbv [task_events task_end run_task nonBlockingActionTask task_cleaner
          task_start forget_trace
          try_catch scope_exit bind ret throw gets modify pure lift
          ResultsMutex.LockGuard ResultsMutex.get ResultsMutex.remove
          ResultsMutex.exists_ ResultsMutex.add
          ResultsStorage.writeMetadata atomic_write_to_file
          call_executeAction lock unlock log log_event set_cache set_files
          set_directories set_lck_ptr set_completed set_exit_code
          set_exec_error set_done
          sendNonBlockingResponse sendPXPError sendProvisionalResponse send];
     cbn [world lck_ptr completed exit_code exec_error done
          cache directories files trace snd fst negb app]).

Ltac same_key :=
  repeat match goal with
         | |- context [bool_decide (?x = ?x)] =>
             rewrite (bool_decide_eq_true_2 (x = x) eq_refl)
         end.

Ltac split_env :=
  match goal with
  | |- context [send_error ?e ?m] => destruct (send_error e m) eqn:?
  | |- context [atomic_write_error ?e ?p] =>
      destruct (atomic_write_error e p) as [[]|] eqn:?
  end.

Ltac crunch Hin := repeat first [progress run_model | rewrite Hin | split_env].

Ltac not_in_trace :=
  let H := fresh in
  intros H; apply list_elem_of_In in H; cbn [In] in H;
  repeat match type of H with
         | _ \/ _ => destruct H as [H|H]; [discriminate H|]
         end;
  exact H.

Ltac is_suffix :=
  first [ reflexivity | apply suffix_cons_r; is_suffix ].

(** The run of the task when the action succeeds, the notify_outcome
    entry can be read and the metadata file can be written. *)
Lemma task_on_success env module_ptr request results_storage w outcome b :
  executeAction module_ptr request = Return outcome ->
  get_bool (data (parsed_chunks_ request)) "notify_outcome" = Return b ->
  atomic_write_error env (ResultsStorage.metadata_file results_storage) = None ->
  let held := bool_decide (transaction_id_ request ∈ cache w) in
  let content :=
    final_metadata results_storage (exitcode outcome)
      (final_exec_error env request outcome b)
      (elapsed_seconds env +:+ " s") in
  task_events env module_ptr request results_storage w
  = [AccessLocked; AccessUnlocked;
     ActionExecuted (module_name module_ptr) request]
    ++ (if held then [MutexLocked (transaction_id_ request)] else [])
    ++ final_send env request outcome b
    ++ [FileWritten (ResultsStorage.metadata_file results_storage) content]
    ++ (if held then closing_events (transaction_id_ request)
        else [DoneSet true])
  /\ files (world (task_end env module_ptr request results_storage w))
     = <[ResultsStorage.metadata_file results_storage := content]> (files w).
Proof.
  intros Hex Hb Hw held content. subst held content.
  unfold final_send, final_exec_error, send_event, final_response.
  destruct (bool_decide (transaction_id_ request ∈ cache w)) eqn:Hin;
    run_model; rewrite Hin; run_model; rewrite Hex; run_model; rewrite Hb;
    destruct b; run_model;
    try destruct (send_error env _); run_model; rewrite Hw; run_model;
    rewrite ?Hin; split; reflexivity.
Qed.

Lemma final_metadata_entries results_storage code err duration :
  get_bool (final_metadata results_storage code err duration) "completed"
    = Return true
  /\ get_int (final_metadata results_storage code err duration) "exitcode"
    = Return code
  /\ get_string (final_metadata results_storage code err duration) "exec_error"
    = Return err.
Proof.
  unfold final_metadata, get_bool, get_int, get_string, get_entry.
  rewrite lookup_member_set_eq.
  rewrite (lookup_member_set_ne _ "exec_error" "exitcode") by distinct_keys.
  rewrite lookup_member_set_eq.
  rewrite !(lookup_member_set_ne _ _ "completed") by distinct_keys.
  rewrite lookup_member_set_eq. done.
Qed.

(** C1, as the specification states it, fails twice.  When the action
    fails with a ProcessingError the metadata file is written before the
    mutex is locked (the cleaner locks it afterwards); and when the mutex
    of the transaction is not in the table the task never locks. *)
Lemma metadata_written_outside_mutex :
  ~ written_under_mutex Examples.calm
      (Examples.reverse (Throw (Module_ProcessingError "boom")))
      (Examples.reverse_request true) Examples.reverse_storage Examples.world_t1
  /\ ~ written_under_mutex Examples.calm
        (Examples.reverse (Return Examples.anodaram))
        (Examples.reverse_request true) Examples.reverse_storage fresh_world.
Proof.
  split; intros H; vm_compute in H; discriminate H.
Qed.

(** The two runs of the lemma above, event by event. *)
Example failed_action_trace :
  task_events Examples.calm
    (Examples.reverse (Throw (Module_ProcessingError "boom")))
    (Examples.reverse_request true) Examples.reverse_storage Examples.world_t1
  = [AccessLocked; AccessUnlocked;
     ActionExecuted "reverse" (Examples.reverse_request true);
     Sent (PXPError (Examples.reverse_request true) "boom");
     FileWritten "/spool/t1/metadata"
       (final_metadata Examples.reverse_storage EXIT_FAILURE
          ("Failed to execute: boom" +:+ LF) "0.000000 s");
     MutexLocked "t1";
     AccessLocked; MutexRemoved "t1"; AccessUnlocked;
     MutexUnlocked "t1"; DoneSet true].
Proof. vm_compute. reflexivity. Qed.

Example missing_mutex_trace :
  task_events Examples.calm (Examples.reverse (Return Examples.anodaram))
    (Examples.reverse_request true) Examples.reverse_storage fresh_world
  = [AccessLocked; AccessUnlocked;
     ActionExecuted "reverse" (Examples.reverse_request true);
     Sent (NonBlockingResponse (Examples.reverse_request true)
             (JString "anodaram") "t1");
     FileWritten "/spool/t1/metadata"
       (final_metadata Examples.reverse_storage 0 "" "0.000000 s");
     DoneSet true].
Proof. vm_compute. reflexivity. Qed.

(** The path of the first run above, in general: when the action fails
    with a ProcessingError the metadata file is written first and the
    mutex is locked afterwards, by the cleaner. *)
Lemma failed_action_writes_before_locking
      env module_ptr request results_storage w description :
  transaction_id_ request ∈ cache w ->
  executeAction module_ptr request = Throw (Module_ProcessingError description) ->
  atomic_write_error env (ResultsStorage.metadata_file results_storage) = None ->
  task_events env module_ptr request results_storage w
  = [AccessLocked; AccessUnlocked;
     ActionExecuted (module_name module_ptr) request;
     send_event env (PXPError request description);
     FileWritten (ResultsStorage.metadata_file results_storage)
       (final_metadata results_storage EXIT_FAILURE
          ("Failed to execute: " +:+ description +:+ LF)
          (elapsed_seconds env +:+ " s"));
     MutexLocked (transaction_id_ request)]
    ++ closing_events (transaction_id_ request).
Proof.
  intros Hin Hex Hw. apply (bool_decide_eq_true_2 _) in Hin.
  unfold send_event.
  run_model. rewrite Hin. run_model. rewrite Hex. run_model.
  destruct (send_error env _); run_model; rewrite Hw; run_model;
    rewrite Hin; reflexivity.
Qed.

(** What [get<bool>] throws: the entry is absent, or is not a boolean. *)
Lemma get_bool_throws c key e :
  get_bool c key = Throw e ->
  (exists description, e = data_key_error description)
  \/ (exists description, e = data_type_error description).
Proof.
  unfold get_bool, get_entry.
  destruct (lookup_member key c) as [[]|]; simpl; intros [= <-]; eauto.
Qed.

(** C1, amended: in every run of the task in which the mutex of the
    transaction is in the table and executeAction returns, the task locks
    the mutex right after the action and releases it only in its cleaner,
    so that every write of the metadata file happens while the task holds
    that mutex.  When notify_outcome can be read and the file can be
    written, the task locks the mutex, hands the final response to the
    connector if asked to, writes completed=true with the exit code and
    the execution error in one write, and only then removes the entry and
    unlocks.  When notify_outcome cannot be read, or the file cannot be
    written, the file is not rewritten at all.  In a run in which the
    mutex is not in the table the task locks nothing. *)
Theorem metadata_written_under_mutex_on_success
        env module_ptr request results_storage w :
  (forall outcome,
     transaction_id_ request ∈ cache w ->
     executeAction module_ptr request = Return outcome ->
     written_under_mutex env module_ptr request results_storage w
     /\ (forall b,
           get_bool (data (parsed_chunks_ request)) "notify_outcome" = Return b ->
           atomic_write_error env (ResultsStorage.metadata_file results_storage)
             = None ->
           let content :=
             final_metadata results_storage (exitcode outcome)
               (final_exec_error env request outcome b)
               (elapsed_seconds env +:+ " s") in
           task_events env module_ptr request results_storage w
           = [AccessLocked; AccessUnlocked;
              ActionExecuted (module_name module_ptr) request;
              MutexLocked (transaction_id_ request)]
             ++ final_send env request outcome b
             ++ [FileWritten (ResultsStorage.metadata_file results_storage)
                   content]
             ++ closing_events (transaction_id_ request)
           /\ get_bool content "completed" = Return true
           /\ get_int content "exitcode" = Return (exitcode outcome)
           /\ get_string content "exec_error"
              = Return (final_exec_error env request outcome b))
     /\ (forall b e,
           get_bool (data (parsed_chunks_ request)) "notify_outcome" = Return b ->
           atomic_write_error env (ResultsStorage.metadata_file results_storage)
             = Some e ->
           task_events env module_ptr request results_storage w
           = [AccessLocked; AccessUnlocked;
              ActionExecuted (module_name module_ptr) request;
              MutexLocked (transaction_id_ request)]
             ++ final_send env request outcome b
             ++ closing_events (transaction_id_ request)
           /\ files (world (task_end env module_ptr request results_storage w))
              = files w)
     /\ (forall e,
           get_bool (data (parsed_chunks_ request)) "notify_outcome" = Throw e ->
           task_events env module_ptr request results_storage w
           = [AccessLocked; AccessUnlocked;
              ActionExecuted (module_name module_ptr) request;
              MutexLocked (transaction_id_ request)]
             ++ closing_events (transaction_id_ request)
           /\ files (world (task_end env module_ptr request results_storage w))
              = files w))
  /\ (transaction_id_ request ∉ cache w ->
      MutexLocked (transaction_id_ request)
        ∉ task_events env module_ptr request results_storage w).
Proof.
  split.
  - intros outcome Hin Hex. apply (bool_decide_eq_true_2 _) in Hin.
    split; [|split; [|split]].
    + unfold written_under_mutex.
      run_model. rewrite Hin. run_model. rewrite Hex. run_model.
      destruct (get_bool _ _) as [[]|[]]; crunch Hin;
        cbn [writes_under_mutex]; same_key; reflexivity.
    + intros b Hb Hw content. split.
      * destruct (task_on_success env module_ptr request results_storage w
                    outcome b Hex Hb Hw) as [-> _].
        rewrite Hin. reflexivity.
      * apply final_metadata_entries.
    + intros b e Hb Hw. unfold final_send, send_event, final_response.
      run_model. rewrite Hin. run_model. rewrite Hex. run_model. rewrite Hb.
      destruct b; run_model;
        try destruct (send_error env _); run_model; rewrite Hw;
        destruct e; run_model; rewrite ?Hin; split; reflexivity.
    + intros e He.
      destruct (get_bool_throws _ _ _ He) as [[description ->]|[description ->]];
        run_model; rewrite Hin; run_model; rewrite Hex; run_model; rewrite He;
        run_model; rewrite ?Hin; split; reflexivity.
  - intros Hin. apply (bool_decide_eq_false_2 _) in Hin.
    run_model. rewrite Hin. run_model.
    destruct (executeAction module_ptr request) as [outcome|[]]; run_model;
      try (destruct (get_bool _ _) as [[]|[]]); crunch Hin; not_in_trace.
Qed.

Lemma metadata_written_under_mutex_on_success_witness :
  written_under_mutex Examples.calm (Examples.reverse (Return Examples.anodaram))
    (Examples.reverse_request true) Examples.reverse_storage Examples.world_t1
  /\ MutexLocked "t1"
       ∉ task_events Examples.calm (Examples.reverse (Return Examples.anodaram))
           (Examples.reverse_request true) Examples.reverse_storage fresh_world.
Proof.
  split.
  - refine (proj1 (proj1 (metadata_written_under_mutex_on_success Examples.calm
              (Examples.reverse (Return Examples.anodaram))
              (Examples.reverse_request true) Examples.reverse_storage
              Examples.world_t1) Examples.anodaram _ eq_refl)).
    vm_compute. reflexivity.
  - refine (proj2 (metadata_written_under_mutex_on_success Examples.calm
              (Examples.reverse (Return Examples.anodaram))
              (Examples.reverse_request true) Examples.reverse_storage
              fresh_world) _).
    apply not_elem_of_empty.
Defined.

Lemma removed_from_cache (id : string) (c : gset string) : id ∉ c ∖ {[id]}.
Proof. rewrite elem_of_difference, elem_of_singleton. intros [_ Hne]. done. Qed.

(** C3, as the specification states it, fails when the mutex of the
    transaction is not in the table: the task then has no lock pointer,
    removes nothing and unlocks nothing; it only sets the done flag. *)
Lemma no_cleanup_without_lock_pointer :
  ~ cleans_up Examples.calm (Examples.reverse (Return Examples.anodaram))
      (Examples.reverse_request true) Examples.reverse_storage fresh_world.
Proof.
  intros [H _]. rewrite missing_mutex_trace in H. revert H. not_in_trace.
Qed.

(** C3, amended: on every path the task sets the done flag, as the last
    thing it does.  When the mutex of the transaction is in the table the
    task ends by removing the entry under the access lock, unlocking the
    mutex and setting the flag, and the entry is gone afterwards.  When it
    is not, the task removes nothing and unlocks nothing, and the table is
    left as it was. *)
Theorem task_ends_with_cleanup env module_ptr request results_storage w :
  done (task_end env module_ptr request results_storage w) = true
  /\ (transaction_id_ request ∈ cache w ->
      (closing_events (transaction_id_ request)
         `suffix_of` task_events env module_ptr request results_storage w)
      /\ (transaction_id_ request
            ∉ cache (world (task_end env module_ptr request results_storage w)))
      /\ lck_ptr (task_end env module_ptr request results_storage w) = Some false)
  /\ (transaction_id_ request ∉ cache w ->
      ([DoneSet true]
         `suffix_of` task_events env module_ptr request results_storage w)
      /\ (MutexRemoved (transaction_id_ request)
            ∉ task_events env module_ptr request results_storage w)
      /\ (MutexUnlocked (transaction_id_ request)
            ∉ task_events env module_ptr request results_storage w)
      /\ cache (world (task_end env module_ptr request results_storage w))
         = cache w).
Proof.
  destruct (bool_decide (transaction_id_ request ∈ cache w)) eqn:Hin.
  - split; [|split].
    + run_model. rewrite Hin. run_model.
      destruct (executeAction module_ptr request) as [outcome|[]]; run_model;
        try (destruct (get_bool _ _) as [[]|[]]); crunch Hin; reflexivity.
    + intros _. unfold closing_events.
      run_model. rewrite Hin. run_model.
      destruct (executeAction module_ptr request) as [outcome|[]]; run_model;
        try (destruct (get_bool _ _) as [[]|[]]); crunch Hin;
        (split; [is_suffix|split; [apply removed_from_cache|reflexivity]]).
    + intros Hn. apply bool_decide_eq_true_1 in Hin. done.
  - split; [|split].
    + run_model. rewrite Hin. run_model.
      destruct (executeAction module_ptr request) as [outcome|[]]; run_model;
        try (destruct (get_bool _ _) as [[]|[]]); crunch Hin; reflexivity.
    + intros Hn. apply bool_decide_eq_false_1 in Hin. done.
    + intros _.
      run_model. rewrite Hin. run_model.
      destruct (executeAction module_ptr request) as [outcome|[]]; run_model;
        try (destruct (get_bool _ _) as [[]|[]]); crunch Hin;
        (split; [is_suffix|split; [not_in_trace|split; [not_in_trace|reflexivity]]]).
Qed.

Lemma task_ends_with_cleanup_witness :
  ("t1" ∉ cache (world (task_end Examples.calm
                          (Examples.reverse (Throw (Module_ProcessingError "boom")))
                          (Examples.reverse_request true)
                          Examples.reverse_storage Examples.world_t1)))
  /\ cache (world (task_end Examples.calm
                     (Examples.reverse (Return Examples.anodaram))
                     (Examples.reverse_request true)
                     Examples.reverse_storage fresh_world)) = ∅.
Proof.
  split.
  - refine (proj1 (proj2 (proj1 (proj2 (task_ends_with_cleanup Examples.calm
              (Examples.reverse (Throw (Module_ProcessingError "boom")))
              (Examples.reverse_request true) Examples.reverse_storage
              Examples.world_t1)) _))).
    vm_compute. reflexivity.
  - refine (proj2 (proj2 (proj2 (proj2 (proj2 (task_ends_with_cleanup
              Examples.calm (Examples.reverse (Return Examples.anodaram))
              (Examples.reverse_request true) Examples.reverse_storage
              fresh_world)) _)))).
    apply not_elem_of_empty.
Defined.

(** ** Dispatch of a non-blocking request *)








(** ** The constructor of ActionRequest *)

(** A request built by the constructor carries the chunks it was built
    from, and its notify_outcome accessor agrees with the entry of the
    data chunk that the task reads. *)
Lemma ActionRequest_new_notify_outcome type chunks request b :
  ActionRequest_new type chunks = Return request ->
  get_bool (data chunks) "notify_outcome" = Return b ->
  parsed_chunks_ request = chunks /\ notify_outcome_ request = b.
Proof.
  unfold ActionRequest_new. intros H Hb.
  destruct (nonempty_entry (envelope chunks) "id"); simpl in H; [|discriminate].
  destruct (nonempty_entry (envelope chunks) "sender"); simpl in H;
    [|discriminate].
  destruct (nonempty_entry (envelope chunks) "transaction_id"); simpl in H;
    [|discriminate].
  destruct (has_data chunks); simpl in H; [|discriminate].
  destruct (data_type chunks); [|discriminate].
  destruct (nonempty_entry (data chunks) "module"); simpl in H; [|discriminate].
  destruct (nonempty_entry (data chunks) "action"); simpl in H; [|discriminate].
  destruct (lookup_member "params" (data chunks)) as [[]|]; simpl in H;
    try discriminate; injection H as <-; simpl; rewrite Hb; done.
Qed.

(** ** Two scenarios of section 8, run *)

(** Blocking ping: the hops of the first debug chunk come back as the
    results of the blocking response. *)
Example blocking_ping :
  match ActionRequest_new Blocking Examples.ping_chunks with
  | Return request =>
      processRequest ActionRequest_new Examples.calm Examples.agent Blocking
        Examples.ping_chunks fresh_world
      = (Return tt,
         {| cache := ∅; directories := ∅; files := ∅;
            trace :=
              [ActionExecuted "ping" request;
               Sent (BlockingResponse request
                       (JObject [("request_hops",
                                  JArray [JObject [("server", JString "A")]])]))] |})
  | Throw _ => False
  end.
Proof. vm_compute. reflexivity. Qed.

(** Blocking ping without debug chunks: a PXP error "no debug entry". *)
Example blocking_ping_missing_debug :
  match ActionRequest_new Blocking Examples.ping_chunks_no_debug with
  | Return request =>
      processRequest ActionRequest_new Examples.calm Examples.agent Blocking
        Examples.ping_chunks_no_debug fresh_world
      = (Return tt,
         {| cache := ∅; directories := ∅; files := ∅;
            trace :=
              [ActionExecuted "ping" request;
               Sent (PXPError request "no debug entry")] |})
  | Throw _ => False
  end.
Proof. vm_compute. reflexivity. Qed.

(* ================================================================= *)
(** * Further properties of the code *)

(** ** Action Response: the metadata and its readers *)

Lemma valid_conforms r :
  valid r = Return (conforms action_metadata_schema (action_metadata r)).
Proof. apply isValidActionMetadata_conforms. Qed.

Lemma conforms_of_request now module_type_ request :
  conforms action_metadata_schema
    (action_metadata (ActionResponse_of_request now module_type_ request))
  = true.
Proof. reflexivity. Qed.

Lemma satisfies_set c key v k :
  satisfies c k = true ->
  (field k = key -> has_type (PCPClient.type k) v = true) ->
  satisfies (set c key v) k = true.
Proof.
  unfold satisfies. intros Hs Ht.
  destruct (decide (key = field k)) as [->|Hne].
  - rewrite lookup_member_set_eq. by apply Ht.
  - by rewrite lookup_member_set_ne.
Qed.

Lemma conforms_set sch c key v :
  conforms sch c = true ->
  (forall k, k ∈ constraints sch -> field k = key ->
             has_type (PCPClient.type k) v = true) ->
  conforms sch (set c key v) = true.
Proof.
  unfold conforms. rewrite !forallb_forall. intros Hc Ht k Hk.
  apply satisfies_set; [by apply Hc|].
  apply Ht. by apply list_elem_of_In.
Qed.

Ltac typed_entry :=
  let k := fresh "k" in
  let Hk := fresh "Hk" in
  let Hf := fresh "Hf" in
  intros k Hk Hf; apply list_elem_of_In in Hk; cbn in Hk;
  repeat (destruct Hk as [<-|Hk]; [first [discriminate Hf | reflexivity]|]);
  destruct Hk.

(** Every setter writes entries of the types the schema asks for. *)
Lemma conforms_derived r0 r :
  conforms action_metadata_schema (action_metadata r0) = true ->
  derived_from r0 r ->
  conforms action_metadata_schema (action_metadata r) = true.
Proof.
  intros Hc0 Hd.
  induction Hd as [|r status _ IH|now r res err _ IH|now r err _ IH];
    [done| | |]; simpl.
  - apply conforms_set; [done|]. typed_entry.
  - destruct (empty err); simpl;
      repeat (apply conforms_set; [|typed_entry]); done.
  - repeat (apply conforms_set; [|typed_entry]); done.
Qed.

Lemma get_container_set_eq c key v :
  get_container (set c key v) key = Return v.
Proof. unfold get_container, get_entry. by rewrite lookup_member_set_eq. Qed.

Lemma get_string_set_eq c key s :
  get_string (set c key (JString s)) key = Return s.
Proof. unfold get_string, get_entry. by rewrite lookup_member_set_eq. Qed.

Lemma get_bool_set_eq c key b :
  get_bool (set c key (JBool b)) key = Return b.
Proof. unfold get_bool, get_entry. by rewrite lookup_member_set_eq. Qed.

Lemma get_bool_set_ne c key key' v :
  key ≠ key' -> get_bool (set c key v) key' = get_bool c key'.
Proof.
  intros Hne. unfold get_bool, get_entry. by rewrite lookup_member_set_ne.
Qed.

Lemma get_container_set_ne c key key' v :
  key ≠ key' -> get_container (set c key v) key' = get_container c key'.
Proof.
  intros Hne. unfold get_container, get_entry. by rewrite lookup_member_set_ne.
Qed.

Lemma includes_set_eq c key v : includes (set c key v) key = true.
Proof. unfold includes. by rewrite lookup_member_set_eq. Qed.

Lemma includes_set_ne c key key' v :
  key ≠ key' -> includes (set c key v) key' = includes c key'.
Proof. intros Hne. unfold includes. by rewrite lookup_member_set_ne. Qed.

Ltac different_keys :=
  let H := fresh in intros H; vm_compute in H; discriminate H.

Ltac read_entries :=
  repeat first
    [ rewrite get_string_set_eq
    | rewrite get_bool_set_eq
    | rewrite get_container_set_eq
    | rewrite includes_set_eq
    | rewrite get_string_set_ne by different_keys
    | rewrite get_bool_set_ne by different_keys
    | rewrite get_container_set_ne by different_keys
    | rewrite includes_set_ne by different_keys ].

Ltac after_setter :=
  simpl;
  repeat match goal with
         | |- context [empty ?e] => destruct (empty e); simpl
         end;
  read_entries; try done.

Lemma toJSON_results r transaction_id results_ response_type :
  get_string (action_metadata r) TRANSACTION_ID = Return transaction_id ->
  get_container (action_metadata r) RESULTS = Return results_ ->
  response_type = R_T.Blocking \/ response_type = R_T.NonBlocking ->
  toJSON r response_type
  = Return [("transaction_id", JString transaction_id); ("results", results_)].
Proof.
  intros Ht Hr [-> | ->]; unfold toJSON; rewrite Ht; simpl; rewrite Hr;
    reflexivity.
Qed.

Lemma toJSON_RPCError r transaction_id request_id description :
  get_string (action_metadata r) TRANSACTION_ID = Return transaction_id ->
  get_string (action_metadata r) REQUEST_ID = Return request_id ->
  get_string (action_metadata r) EXECUTION_ERROR = Return description ->
  toJSON r R_T.RPCError
  = Return [("transaction_id", JString transaction_id);
            ("id", JString request_id);
            ("description", JString description)].
Proof.
  intros Ht Hr Hd. unfold toJSON. rewrite Ht. simpl. rewrite Hr. simpl.
  rewrite Hd. reflexivity.
Qed.

(** X1: the response built from a request (the two-argument constructor)
    has valid metadata, for every request; it is valid for the
    StatusOutput response type and for no other one, since its metadata
    has neither results nor an execution error yet. *)
Theorem response_of_request_is_valid now module_type_ request :
  valid (ActionResponse_of_request now module_type_ request) = Return true
  /\ valid_for (ActionResponse_of_request now module_type_ request)
       R_T.StatusOutput = Return true
  /\ valid_for (ActionResponse_of_request now module_type_ request)
       R_T.Blocking = Return false
  /\ valid_for (ActionResponse_of_request now module_type_ request)
       R_T.NonBlocking = Return false
  /\ valid_for (ActionResponse_of_request now module_type_ request)
       R_T.RPCError = Return false.
Proof.
  unfold valid_for. rewrite valid_conforms, conforms_of_request.
  repeat split.
Qed.

(** X2: setStatus, setValidResultsAndEnd and setBadResultsAndEnd keep the
    metadata valid: a response reached by them from a response with valid
    metadata has valid metadata. *)
Theorem setters_keep_metadata_valid r0 r :
  valid r0 = Return true ->
  derived_from r0 r ->
  valid r = Return true.
Proof.
  rewrite !valid_conforms. intros H0 Hd.
  rewrite (conforms_derived r0 r); [done| |done]. congruence.
Qed.

Lemma setters_keep_metadata_valid_witness :
  valid (setStatus
           (setBadResultsAndEnd "2015-06-01T10:00:01Z"
              (ActionResponse_of_request "2015-06-01T10:00:00Z" Internal
                 Examples.ping_request)
              "no debug entry")
           Failure)
  = Return true.
Proof.
  apply (setters_keep_metadata_valid
           (ActionResponse_of_request "2015-06-01T10:00:00Z" Internal
              Examples.ping_request)).
  - reflexivity.
  - apply derived_setStatus, derived_setBadResultsAndEnd, derived_here.
Defined.

(** X3: after setValidResultsAndEnd the Blocking and NonBlocking responses
    carry the transaction id of the metadata and the results just set; the
    status is success, results_are_valid is true and end is the time of
    the call; and if the metadata was valid the response is valid for
    these response types. *)
Theorem valid_results_reach_the_response
        now r results_ execution_error transaction_id response_type :
  get_string (action_metadata r) TRANSACTION_ID = Return transaction_id ->
  response_type = R_T.Blocking \/ response_type = R_T.NonBlocking ->
  let r' := setValidResultsAndEnd now r results_ execution_error in
  toJSON r' response_type
  = Return [("transaction_id", JString transaction_id); ("results", results_)]
  /\ get_string (action_metadata r') STATUS = Return "success"
  /\ get_bool (action_metadata r') RESULTS_ARE_VALID = Return true
  /\ get_string (action_metadata r') END_ = Return now
  /\ (valid r = Return true -> valid_for r' response_type = Return true).
Proof.
  intros Ht Hr r'. subst r'.
  split; [|split; [|split; [|split]]].
  - apply toJSON_results; [| |done].
    + rewrite <- Ht. after_setter.
    + after_setter.
  - after_setter.
  - after_setter.
  - after_setter.
  - intros Hv. unfold valid_for. rewrite valid_conforms in *.
    rewrite (conforms_derived r);
      [|congruence|apply derived_setValidResultsAndEnd, derived_here].
    assert (Hi : includes
                   (action_metadata
                      (setValidResultsAndEnd now r results_ execution_error))
                   RESULTS = true) by after_setter.
    destruct Hr as [-> | ->]; simpl in *; by rewrite Hi.
Qed.

Lemma valid_results_reach_the_response_witness :
  toJSON (setValidResultsAndEnd "2015-06-01T10:00:01Z"
            (ActionResponse_of_request "2015-06-01T10:00:00Z" External
               (Examples.reverse_request true))
            (JString "anodaram") "")
         R_T.NonBlocking
  = Return [("transaction_id", JString "t1"); ("results", JString "anodaram")].
Proof.
  exact (proj1 (valid_results_reach_the_response "2015-06-01T10:00:01Z"
                  (ActionResponse_of_request "2015-06-01T10:00:00Z" External
                     (Examples.reverse_request true))
                  (JString "anodaram") "" "t1" R_T.NonBlocking
                  eq_refl (or_intror eq_refl))).
Defined.

(** X4: after setBadResultsAndEnd the RPCError response carries the
    transaction id and the request id of the metadata and, as its
    description, the execution error just set; the status is failure,
    results_are_valid is false and end is the time of the call; and if
    the metadata was valid the response is valid for RPCError. *)
Theorem bad_results_reach_the_error_response
        now r execution_error transaction_id request_id :
  get_string (action_metadata r) TRANSACTION_ID = Return transaction_id ->
  get_string (action_metadata r) REQUEST_ID = Return request_id ->
  let r' := setBadResultsAndEnd now r execution_error in
  toJSON r' R_T.RPCError
  = Return [("transaction_id", JString transaction_id);
            ("id", JString request_id);
            ("description", JString execution_error)]
  /\ get_string (action_metadata r') STATUS = Return "failure"
  /\ get_bool (action_metadata r') RESULTS_ARE_VALID = Return false
  /\ get_string (action_metadata r') END_ = Return now
  /\ (valid r = Return true -> valid_for r' R_T.RPCError = Return true).
Proof.
  intros Ht Hi r'. subst r'.
  split; [|split; [|split; [|split]]].
  - apply toJSON_RPCError.
    + rewrite <- Ht. after_setter.
    + rewrite <- Hi. after_setter.
    + after_setter.
  - after_setter.
  - after_setter.
  - after_setter.
  - intros Hv. unfold valid_for. rewrite valid_conforms in *.
    rewrite (conforms_derived r);
      [|congruence|apply derived_setBadResultsAndEnd, derived_here].
    assert (Hin : includes
                    (action_metadata (setBadResultsAndEnd now r execution_error))
                    EXECUTION_ERROR = true) by after_setter.
    simpl in *. by rewrite Hin.
Qed.

Lemma bad_results_reach_the_error_response_witness :
  toJSON (setBadResultsAndEnd "2015-06-01T10:00:01Z"
            (ActionResponse_of_request "2015-06-01T10:00:00Z" Internal
               Examples.ping_request)
            "no debug entry")
         R_T.RPCError
  = Return [("transaction_id", JString "t1"); ("id", JString "req-1");
            ("description", JString "no debug entry")].
Proof.
  exact (proj1 (bad_results_reach_the_error_response "2015-06-01T10:00:01Z"
                  (ActionResponse_of_request "2015-06-01T10:00:00Z" Internal
                     Examples.ping_request)
                  "no debug entry" "t1" "req-1" eq_refl eq_refl)).
Defined.

(** X5: setValidResultsAndEnd called with an empty execution error does
    not touch the execution_error entry: an error recorded earlier stays
    in the metadata of a response whose status is now success. *)
Theorem valid_results_keep_an_earlier_error now r results_ earlier :
  get_string (action_metadata r) EXECUTION_ERROR = Return earlier ->
  let r' := setValidResultsAndEnd now r results_ "" in
  get_string (action_metadata r') EXECUTION_ERROR = Return earlier
  /\ get_string (action_metadata r') STATUS = Return "success"
  /\ get_bool (action_metadata r') RESULTS_ARE_VALID = Return true.
Proof.
  intros He r'. subst r'. split; [|split].
  - rewrite <- He. simpl. read_entries. done.
  - simpl. read_entries. done.
  - simpl. read_entries. done.
Qed.

Lemma valid_results_keep_an_earlier_error_witness :
  get_string
    (action_metadata
       (setValidResultsAndEnd "2015-06-01T10:00:02Z" Examples.error_response
          (JString "anodaram") ""))
    EXECUTION_ERROR
  = Return "no debug entry".
Proof.
  exact (proj1 (valid_results_keep_an_earlier_error "2015-06-01T10:00:02Z"
                  Examples.error_response (JString "anodaram")
                  "no debug entry" eq_refl)).
Defined.

(** X6: the metadata of a response built from a request, after any
    sequence of setter calls, is accepted by the four-argument
    constructor: the response can be rebuilt from its recorded metadata,
    with whatever output, and keeps that metadata. *)
Theorem recorded_metadata_can_be_reloaded
        now module_type_ request r module_type' request_type' output' :
  derived_from (ActionResponse_of_request now module_type_ request) r ->
  exists r',
    ActionResponse_of_outcome module_type' request_type' output'
      (action_metadata r) = Return r'
    /\ action_metadata r' = action_metadata r
    /\ output r' = output'.
Proof.
  intros Hd.
  pose proof (conforms_derived _ _
                (conforms_of_request now module_type_ request) Hd) as Hv.
  unfold ActionResponse_of_outcome, valid. simpl.
  rewrite isValidActionMetadata_conforms, Hv. simpl. eauto.
Qed.

Lemma recorded_metadata_can_be_reloaded_witness :
  exists r',
    ActionResponse_of_outcome External NonBlocking empty_output
      (action_metadata
         (setValidResultsAndEnd "2015-06-01T10:00:01Z"
            (ActionResponse_of_request "2015-06-01T10:00:00Z" External
               (Examples.reverse_request true))
            (JString "anodaram") "")) = Return r'
    /\ action_metadata r'
       = action_metadata
           (setValidResultsAndEnd "2015-06-01T10:00:01Z"
              (ActionResponse_of_request "2015-06-01T10:00:00Z" External
                 (Examples.reverse_request true))
              (JString "anodaram") "")
    /\ output r' = empty_output.
Proof.
  apply (recorded_metadata_can_be_reloaded "2015-06-01T10:00:00Z" External
           (Examples.reverse_request true)).
  apply derived_setValidResultsAndEnd, derived_here.
Defined.

(** ** Results Storage *)

Ltac run_storage :=
  repeat progress
    (cbv [ResultsStorage.new ResultsStorage.initialize
          ResultsStorage.writeMetadata
          create_directories ResultsStorage.with_metadata storage_for
          try_catch scope_exit bind ret throw gets modify pure
          ResultsMutex.LockGuard ResultsMutex.exists_ ResultsMutex.add
          atomic_write_to_file log set_cache set_files set_directories];
     cbn [cache directories files trace snd fst negb app
          ResultsStorage.metadata_file ResultsStorage.action_metadata
          ResultsStorage.module ResultsStorage.action]).

(** X7: when the results directory exists or can be created and the
    metadata file can be written, the constructor of ResultsStorage
    returns; afterwards the results directory exists, the metadata file
    holds the initial metadata, and the mutex table has an entry for the
    transaction; no directory and no entry of the table is lost. *)
Theorem results_storage_is_set_up env request w :
  (results_dir_ request ∈ directories w
   \/ create_directories_error env (results_dir_ request) = None) ->
  atomic_write_error env (ResultsStorage.metadata_file (storage_for request))
    = None ->
  exists w',
    ResultsStorage.new env request w = (Return (storage_for request), w')
    /\ results_dir_ request ∈ directories w'
    /\ directories w ⊆ directories w'
    /\ files w' = <[ResultsStorage.metadata_file (storage_for request)
                     := initial_metadata request]> (files w)
    /\ transaction_id_ request ∈ cache w'
    /\ cache w ⊆ cache w'.
Proof.
  intros Hd Hw. revert Hd Hw. run_storage. intros Hd Hw.
  destruct (bool_decide (results_dir_ request ∈ directories w)) eqn:Ed;
    run_storage.
  - rewrite Hw. run_storage.
    apply bool_decide_eq_true_1 in Ed.
    destruct (bool_decide (transaction_id_ request ∈ cache w)) eqn:Ec;
      run_storage; rewrite ?Ec; run_storage;
      eexists; (split; [reflexivity|]); cbn [cache directories files].
    + apply bool_decide_eq_true_1 in Ec. done.
    + repeat split; try done.
      * apply elem_of_union. left. by apply elem_of_singleton.
      * apply union_subseteq_r.
  - destruct Hd as [Hd|Hd].
    { apply (bool_decide_eq_true_2 _) in Hd. congruence. }
    rewrite Hd. run_storage. rewrite Hw. run_storage.
    destruct (bool_decide (transaction_id_ request ∈ cache w)) eqn:Ec;
      run_storage; rewrite ?Ec; run_storage;
      eexists; (split; [reflexivity|]); cbn [cache directories files].
    + apply bool_decide_eq_true_1 in Ec. repeat split; try done.
      * apply elem_of_union. left. by apply elem_of_singleton.
      * apply union_subseteq_r.
    + repeat split; try done.
      * apply elem_of_union. left. by apply elem_of_singleton.
      * apply union_subseteq_r.
      * apply elem_of_union. left. by apply elem_of_singleton.
      * apply union_subseteq_r.
Qed.

Lemma results_storage_is_set_up_witness :
  exists w',
    ResultsStorage.new Examples.calm (Examples.reverse_request true) fresh_world
    = (Return (storage_for (Examples.reverse_request true)), w')
    /\ "/spool/t1" ∈ directories w'
    /\ directories fresh_world ⊆ directories w'
    /\ files w' = <["/spool/t1/metadata"
                     := initial_metadata (Examples.reverse_request true)]> ∅
    /\ "t1" ∈ cache w'
    /\ cache fresh_world ⊆ cache w'.
Proof.
  exact (results_storage_is_set_up Examples.calm (Examples.reverse_request true)
           fresh_world (or_intror eq_refl) eq_refl).
Defined.

(** X8: when the results directory does not exist and cannot be created,
    the constructor of ResultsStorage throws ResultsStorage::Error with
    the description of the failure and leaves everything as it was: no
    file is written and the mutex table gets no entry. *)
Theorem results_storage_fails_without_directory env request w description :
  results_dir_ request ∉ directories w ->
  create_directories_error env (results_dir_ request) = Some description ->
  ResultsStorage.new env request w
  = (Throw (ResultsStorage_Error
              ("failed to create results directory: " +:+ description)), w).
Proof.
  intros Hd Hc. apply (bool_decide_eq_false_2 _) in Hd.
  run_storage. rewrite Hd. run_storage. rewrite Hc. run_storage.
  by destruct w.
Qed.

Lemma results_storage_fails_without_directory_witness :
  ResultsStorage.new Fixtures.no_spool (Examples.reverse_request true)
    fresh_world
  = (Throw (ResultsStorage_Error
              "failed to create results directory: permission denied"),
     fresh_world).
Proof.
  apply (results_storage_fails_without_directory Fixtures.no_spool
           (Examples.reverse_request true) fresh_world "permission denied").
  - apply not_elem_of_empty.
  - reflexivity.
Defined.

(** X9: writeMetadata, when the file can be written, replaces the
    metadata file by the initial metadata completed: the file has the
    seven entries module, action, completed, duration, input, exitcode and
    exec_error, with completed true, the module, action and input of the
    request, and the exit code, error and duration given. *)
Theorem metadata_file_after_completion env request code err duration w :
  atomic_write_error env (ResultsStorage.metadata_file (storage_for request))
    = None ->
  let content := final_metadata (storage_for request) code err duration in
  ResultsStorage.writeMetadata env (storage_for request) code err duration w
  = (Return tt,
     {| cache := cache w; directories := directories w;
        files := <[ResultsStorage.metadata_file (storage_for request)
                    := content]> (files w);
        trace := trace w
                 ++ [FileWritten
                       (ResultsStorage.metadata_file (storage_for request))
                       content] |})
  /\ keys content
     = ["module"; "action"; "completed"; "duration"; "input"; "exitcode";
        "exec_error"]
  /\ get_string content "module" = Return (module_ request)
  /\ get_string content "action" = Return (action_ request)
  /\ get_bool content "completed" = Return true
  /\ get_string content "duration" = Return duration
  /\ get_string content "input"
     = Return (if empty (params_txt_ request) then "none"
               else params_txt_ request)
  /\ get_int content "exitcode" = Return code
  /\ get_string content "exec_error" = Return err.
Proof.
  intros Hw content. subst content. split.
  - revert Hw. run_storage. intros Hw. rewrite Hw. reflexivity.
  - unfold final_metadata, storage_for, initial_metadata.
    cbn [ResultsStorage.action_metadata].
    destruct (empty (params_txt_ request)); repeat split; reflexivity.
Qed.

Lemma metadata_file_after_completion_witness :
  keys (final_metadata (storage_for (Examples.reverse_request true)) 0 ""
          "0.000000 s")
  = ["module"; "action"; "completed"; "duration"; "input"; "exitcode";
     "exec_error"].
Proof.
  exact (proj1 (proj2 (metadata_file_after_completion Examples.calm
                         (Examples.reverse_request true) 0 "" "0.000000 s"
                         fresh_world eq_refl))).
Defined.

(** X29: the constructor of ResultsStorage does not turn a failure to
    write the initial metadata into a ResultsStorage::Error: the exception
    of the write leaves the constructor as it is, after the results
    directory has been created; no file is written and the mutex table
    gets no entry. *)
Theorem failed_metadata_write_is_not_a_storage_error env request w e :
  (results_dir_ request ∈ directories w
   \/ create_directories_error env (results_dir_ request) = None) ->
  atomic_write_error env (ResultsStorage.metadata_file (storage_for request))
    = Some e ->
  exists w',
    ResultsStorage.new env request w = (Throw e, w')
    /\ results_dir_ request ∈ directories w'
    /\ files w' = files w
    /\ cache w' = cache w.
Proof.
  intros Hd Hw. revert Hd Hw. run_storage. intros Hd Hw.
  destruct (bool_decide (results_dir_ request ∈ directories w)) eqn:Ed;
    run_storage.
  - rewrite Hw. run_storage. apply bool_decide_eq_true_1 in Ed.
    eexists. split; [reflexivity|]. by destruct w.
  - destruct Hd as [Hd|Hd].
    { apply (bool_decide_eq_true_2 _) in Hd. congruence. }
    rewrite Hd. run_storage. rewrite Hw. run_storage.
    eexists. split; [reflexivity|]. cbn [cache directories files].
    repeat split. apply elem_of_union. left. by apply elem_of_singleton.
Qed.

Lemma failed_metadata_write_is_not_a_storage_error_witness :
  exists w',
    ResultsStorage.new Fixtures.full_disk (Examples.reverse_request true)
      fresh_world
    = (Throw (std_exception "no space left on device"), w')
    /\ "/spool/t1" ∈ directories w'
    /\ files w' = ∅
    /\ cache w' = ∅.
Proof.
  exact (failed_metadata_write_is_not_a_storage_error Fixtures.full_disk
           (Examples.reverse_request true) fresh_world
           (std_exception "no space left on device")
           (or_intror eq_refl) eq_refl).
Defined.

(** ** The non-blocking action task, on its other paths *)

(** X10: when the action throws something other than a
    Module::ProcessingError or a connection error, the task does not catch
    it: the exception leaves the task, the metadata file is not rewritten
    (it keeps saying that the action has not completed) and nothing is
    handed to the connector. *)
Theorem unhandled_exception_leaves_no_metadata
        env module_ptr request results_storage w e :
  executeAction module_ptr request = Throw e ->
  caught_by_task e = false ->
  fst (run_task env module_ptr request results_storage (forget_trace w))
    = Throw e
  /\ files (world (task_end env module_ptr request results_storage w))
     = files w
  /\ handed_to_connector
       (task_events env module_ptr request results_storage w) = [].
Proof.
  intros Hex Hc.
  destruct (bool_decide (transaction_id_ request ∈ cache w)) eqn:Hin;
    run_model; rewrite Hin; run_model; rewrite Hex;
    destruct e; try discriminate Hc; crunch Hin; repeat split.
Qed.

Lemma unhandled_exception_leaves_no_metadata_witness :
  fst (run_task Examples.calm
         (Examples.reverse (Throw (std_exception "bad alloc")))
         (Examples.reverse_request true) Examples.reverse_storage
         (forget_trace Examples.world_t1))
  = Throw (std_exception "bad alloc").
Proof.
  exact (proj1 (unhandled_exception_leaves_no_metadata Examples.calm
                  (Examples.reverse (Throw (std_exception "bad alloc")))
                  (Examples.reverse_request true) Examples.reverse_storage
                  Examples.world_t1 (std_exception "bad alloc")
                  eq_refl eq_refl)).
Defined.

(** X11: when the action throws Module::ProcessingError and the metadata
    file can be written, the task returns; the only message handed to the
    connector is a PXP error with the description of the exception
    (whether or not the requester asked to be notified, and also when
    that send fails); and the metadata file records EXIT_FAILURE and
    the error Failed to execute followed by the description. *)
Theorem failed_action_is_recorded_and_reported
        env module_ptr request results_storage w description :
  executeAction module_ptr request = Throw (Module_ProcessingError description) ->
  atomic_write_error env (ResultsStorage.metadata_file results_storage) = None ->
  fst (run_task env module_ptr request results_storage (forget_trace w))
    = Return tt
  /\ handed_to_connector
       (task_events env module_ptr request results_storage w)
     = [PXPError request description]
  /\ files (world (task_end env module_ptr request results_storage w))
     = <[ResultsStorage.metadata_file results_storage
          := final_metadata results_storage EXIT_FAILURE
               ("Failed to execute: " +:+ description +:+ LF)
               (elapsed_seconds env +:+ " s")]> (files w).
Proof.
  intros Hex Hw.
  destruct (bool_decide (transaction_id_ request ∈ cache w)) eqn:Hin;
    run_model; rewrite Hin; run_model; rewrite Hex; run_model;
    destruct (send_error env _); run_model; rewrite Hw; run_model;
    rewrite ?Hin; repeat split.
Qed.

Lemma failed_action_is_recorded_and_reported_witness :
  handed_to_connector
    (task_events Examples.calm
       (Examples.reverse (Throw (Module_ProcessingError "no such file")))
       (Examples.reverse_request false) Examples.reverse_storage
       Examples.world_t1)
  = [PXPError (Examples.reverse_request false) "no such file"].
Proof.
  exact (proj1 (proj2 (failed_action_is_recorded_and_reported Examples.calm
                         (Examples.reverse
                            (Throw (Module_ProcessingError "no such file")))
                         (Examples.reverse_request false)
                         Examples.reverse_storage Examples.world_t1
                         "no such file" eq_refl eq_refl))).
Defined.

(** X12: when the action returns, the requester asked to be notified and
    the final response cannot be sent, the task still returns: the
    failure is recorded in the metadata file as the error Failed to send
    non blocking response followed by its description, beside the exit
    code of the action, and no other message is handed to the
    connector. *)
Theorem unsent_final_response_is_recorded
        env module_ptr request results_storage w outcome description :
  executeAction module_ptr request = Return outcome ->
  get_bool (data (parsed_chunks_ request)) "notify_outcome" = Return true ->
  send_error env (final_response request outcome) = Some description ->
  atomic_write_error env (ResultsStorage.metadata_file results_storage) = None ->
  fst (run_task env module_ptr request results_storage (forget_trace w))
    = Return tt
  /\ handed_to_connector
       (task_events env module_ptr request results_storage w)
     = [final_response request outcome]
  /\ files (world (task_end env module_ptr request results_storage w))
     = <[ResultsStorage.metadata_file results_storage
          := final_metadata results_storage (exitcode outcome)
               ("Failed to send non blocking response: " +:+ description
                +:+ LF)
               (elapsed_seconds env +:+ " s")]> (files w).
Proof.
  intros Hex Hb Hs Hw. unfold final_response in *.
  destruct (bool_decide (transaction_id_ request ∈ cache w)) eqn:Hin;
    run_model; rewrite Hin; run_model; rewrite Hex; run_model; rewrite Hb;
    run_model; rewrite Hs; run_model; rewrite Hw; run_model;
    rewrite ?Hin; repeat split.
Qed.

Lemma unsent_final_response_is_recorded_witness :
  files (world (task_end Fixtures.offline Fixtures.reverse_module
                  (Examples.reverse_request true) Examples.reverse_storage
                  Examples.world_t1))
  = <["/spool/t1/metadata"
       := final_metadata Examples.reverse_storage 0
            ("Failed to send non blocking response: connection closed" +:+ LF)
            "0.000000 s"]> ∅.
Proof.
  exact (proj2 (proj2 (unsent_final_response_is_recorded Fixtures.offline
                         Fixtures.reverse_module
                         (Examples.reverse_request true)
                         Examples.reverse_storage Examples.world_t1
                         Examples.anodaram "connection closed"
                         eq_refl eq_refl eq_refl eq_refl))).
Defined.

(** X13: whatever the action and the collaborators do, the task hands at
    most one message to the connector, creates and removes no directory,
    adds no entry to the mutex table and removes no entry of another
    transaction. *)
Theorem task_keeps_to_its_transaction env module_ptr request results_storage w :
  (length (handed_to_connector
             (task_events env module_ptr request results_storage w)) <= 1)%nat
  /\ directories (world (task_end env module_ptr request results_storage w))
     = directories w
  /\ cache (world (task_end env module_ptr request results_storage w))
       ⊆ cache w
  /\ (forall id, id ≠ transaction_id_ request ->
        id ∈ cache w ->
        id ∈ cache (world (task_end env module_ptr request results_storage w))).
Proof.
  destruct (bool_decide (transaction_id_ request ∈ cache w)) eqn:Hin;
    run_model; rewrite Hin; run_model;
    (destruct (executeAction module_ptr request) as [outcome|[]]; run_model;
     try (destruct (get_bool _ _) as [[]|[]]); crunch Hin;
     (split; [cbn; lia|split; [reflexivity|split]]));
    try done;
    try apply subseteq_difference_l; try done;
    intros id Hne Hid; apply elem_of_difference; split; try done;
    by rewrite elem_of_singleton.
Qed.

(** ** The Request Processor: validation and dispatch *)

(** X14: validateRequestContent accepts a request exactly when the module
    is loaded, the module has the action, the request is not a
    non-blocking request for an internal module, and the input validator
    of the module accepts the parameters under the schema named after the
    action. *)
Theorem validation_passes_exactly_when this request :
  validateRequestContent this request = Return tt
  <-> exists m,
        modules_ this !! module_ request = Some m
        /\ hasAction m (action_ request) = true
        /\ ~ (type m = Internal /\ type_ request = NonBlocking)
        /\ validate (input_validator_ m) (params_ request) (action_ request)
           = Return tt.
Proof.
  unfold validateRequestContent, modules_at.
  destruct (modules_ this !! module_ request) as [m|] eqn:Hm; simpl.
  2: { split; [discriminate|]. intros (m & [=] & _). }
  destruct (hasAction m (action_ request)) eqn:Ha; simpl.
  2: { split; [discriminate|]. intros (m' & [= <-] & Ha' & _). congruence. }
  destruct (type m) eqn:Ht, (type_ request) eqn:Hr; simpl;
    try (split; [discriminate|]; intros (m' & [= <-] & _ & Hn & _);
         exfalso; apply Hn; split; congruence);
    (destruct (validate (input_validator_ m) (params_ request) (action_ request))
       as [[]|[]] eqn:Hv; simpl;
     (split;
      [ first [discriminate | intros _; exists m; repeat split; try done;
                              intros [? ?]; congruence]
      | first [done | intros (m' & [= <-] & _ & _ & Hv'); congruence] ])).
Qed.

Lemma validation_passes_exactly_when_witness :
  validateRequestContent Fixtures.reverse_agent (Examples.reverse_request true)
  = Return tt.
Proof.
  apply (proj2 (validation_passes_exactly_when Fixtures.reverse_agent
                  (Examples.reverse_request true))).
  exists Fixtures.reverse_module.
  split; [reflexivity|]. split; [reflexivity|].
  split; [intros [H _]; discriminate H|reflexivity].
Defined.

(** X15: a request for an action of a loaded module (not a non-blocking
    request for an internal module) whose parameters the input validator
    refuses is answered by the PXP error invalid input for 'M A', and by
    nothing else: the action is not executed. *)
Theorem invalid_input_is_refused
        ctor env this request_type parsed_chunks request m description w :
  ctor request_type parsed_chunks = Return request ->
  modules_ this !! module_ request = Some m ->
  hasAction m (action_ request) = true ->
  ~ (type m = Internal /\ type_ request = NonBlocking) ->
  validate (input_validator_ m) (params_ request) (action_ request)
    = Throw (validation_error description) ->
  validateRequestContent this request
  = Throw (RequestProcessor_Error
             ("invalid input for '" +:+ module_ request +:+ " "
              +:+ action_ request +:+ "'"))
  /\ processRequest ctor env this request_type parsed_chunks w
     = sendPXPError env request
         ("invalid input for '" +:+ module_ request +:+ " "
          +:+ action_ request +:+ "'") w.
Proof.
  intros Hc Hm Ha Hn Hv.
  assert (Hval : validateRequestContent this request
                 = Throw (RequestProcessor_Error
                            ("invalid input for '" +:+ module_ request +:+ " "
                             +:+ action_ request +:+ "'"))).
  { unfold validateRequestContent, modules_at. rewrite Hm. simpl.
    rewrite Ha. simpl.
    destruct (type m) eqn:Ht, (type_ request) eqn:Hr; simpl;
      try (exfalso; apply Hn; split; congruence);
      rewrite Hv; reflexivity. }
  split; [exact Hval|]. by apply processRequest_invalid.
Qed.

Lemma invalid_input_is_refused_witness :
  exists request,
    processRequest ActionRequest_new Examples.calm Examples.agent Blocking
      Fixtures.bad_ping_chunks fresh_world
    = (Return tt,
       {| cache := ∅; directories := ∅; files := ∅;
          trace := [Sent (PXPError request "invalid input for 'ping ping'")] |}).
Proof.
  eexists.
  rewrite (proj2 (invalid_input_is_refused ActionRequest_new Examples.calm
                    Examples.agent Blocking Fixtures.bad_ping_chunks _
                    Ping.Ping _ fresh_world eq_refl eq_refl eq_refl
                    (fun H => match proj2 H in _ = t
                                    return match t with
                                           | Blocking => True
                                           | NonBlocking => False
                                           end
                              with eq_refl => I end)
                    eq_refl)).
  reflexivity.
Defined.

Ltac run_request :=
  repeat progress
    (cbv [processRequest processBlockingRequest modules_index
          call_executeAction forget_trace after_dispatch
          try_catch scope_exit bind ret throw gets modify pure
          log set_cache set_files set_directories
          sendPXPError sendBlockingResponse sendPCPError send send_event];
     cbn [cache directories files trace snd fst negb app what]).

(** X16: a validated blocking request is executed and answered within
    processRequest: the connector is handed the blocking response with
    the results of the action (followed by a PXP error when that response
    cannot be sent), or a PXP error with the description of the exception
    when the action throws; no directory is created, no file is written
    and the mutex table is not touched. *)
Theorem blocking_request_is_answered_inline
        ctor env this request_type parsed_chunks request m w :
  ctor request_type parsed_chunks = Return request ->
  validateRequestContent this request = Return tt ->
  modules_ this !! module_ request = Some m ->
  type_ request = Blocking ->
  let w' := snd (processRequest ctor env this request_type parsed_chunks
                   (forget_trace w)) in
  handed_to_connector (trace w') = blocking_answer env m request
  /\ directories w' = directories w
  /\ files w' = files w
  /\ cache w' = cache w.
Proof.
  intros Hc Hv Hm Ht w'. subst w'. unfold blocking_answer.
  run_request. rewrite Hc. run_request. rewrite Hv. run_request.
  rewrite Ht. run_request. rewrite Hm. run_request.
  destruct (executeAction m request) as [outcome|e]; run_request.
  - destruct (send_error env (BlockingResponse _ _)); run_request;
      try destruct (send_error env (PXPError _ _)); run_request;
      repeat split.
  - destruct (send_error env (PXPError _ _)); run_request; repeat split.
Qed.

Lemma blocking_request_is_answered_inline_witness :
  exists request,
    handed_to_connector
      (trace (snd (processRequest ActionRequest_new Examples.calm
                     Examples.agent Blocking Examples.ping_chunks_no_debug
                     (forget_trace fresh_world))))
    = [PXPError request "no debug entry"].
Proof.
  eexists.
  rewrite (proj1 (blocking_request_is_answered_inline ActionRequest_new
                    Examples.calm Examples.agent Blocking
                    Examples.ping_chunks_no_debug _ Ping.Ping fresh_world
                    eq_refl eq_refl eq_refl eq_refl)).
  reflexivity.
Defined.

(** X17: a blocking ping request whose parameters the input schema of
    ping accepts and whose first debug chunk has a hops array of objects
    is answered, when the connector accepts the message, by one blocking
    response whose results are the object with the single entry
    request_hops holding those hops; nothing else happens. *)
Theorem ping_answers_with_the_hops
        ctor env this request_type parsed_chunks request debug_entry rest hops w :
  ctor request_type parsed_chunks = Return request ->
  modules_ this !! "ping" = Some Ping.Ping ->
  module_ request = "ping" ->
  action_ request = "ping" ->
  type_ request = Blocking ->
  conforms Ping.input_schema (params_ request) = true ->
  debug (parsed_chunks_ request) = debug_entry :: rest ->
  lookup_member "hops" debug_entry = Some (JArray (map JObject hops)) ->
  send_error env
    (BlockingResponse request
       (JObject [("request_hops", JArray (map JObject hops))])) = None ->
  processRequest ctor env this request_type parsed_chunks (forget_trace w)
  = (Return tt,
     {| cache := cache w; directories := directories w; files := files w;
        trace :=
          [ActionExecuted "ping" request;
           Sent (BlockingResponse request
                   (JObject [("request_hops", JArray (map JObject hops))]))] |}).
Proof.
  intros Hc Hm Hmod Hact Ht Hp Hd Hh Hs.
  assert (Hv : validateRequestContent this request = Return tt).
  { unfold validateRequestContent, modules_at. rewrite Hmod, Hm, Hact, Ht.
    simpl. unfold validate.
    change (registerSchema ∅ Ping.input_schema !! "ping")
      with (Some Ping.input_schema).
    cbv beta iota. rewrite Hp. reflexivity. }
  assert (Hex : executeAction Ping.Ping request
                = Return (Ping.outcome_of_results
                            [("request_hops", JArray (map JObject hops))])).
  { simpl. unfold Ping.callAction, Ping.ping. rewrite Hd.
    rewrite (get_vector_of_objects _ _ _ Hh). reflexivity. }
  run_request. rewrite Hc. run_request. rewrite Hv. run_request.
  rewrite Ht. run_request. rewrite Hmod, Hm. run_request.
  rewrite Hex. run_request.
  cbn [results Ping.outcome_of_results]. rewrite Hs. reflexivity.
Qed.

Lemma ping_answers_with_the_hops_witness :
  exists request,
    processRequest ActionRequest_new Examples.calm Examples.agent Blocking
      Examples.ping_chunks (forget_trace fresh_world)
    = (Return tt,
       {| cache := ∅; directories := ∅; files := ∅;
          trace :=
            [ActionExecuted "ping" request;
             Sent (BlockingResponse request
                     (JObject [("request_hops",
                                JArray (map JObject Examples.hops1))]))] |}).
Proof.
  eexists.
  exact (ping_answers_with_the_hops ActionRequest_new Examples.calm
           Examples.agent Blocking Examples.ping_chunks _ _ _ Examples.hops1
           fresh_world eq_refl eq_refl eq_refl eq_refl eq_refl eq_refl
           eq_refl eq_refl eq_refl).
Defined.

Ltac run_dispatch :=
  repeat progress
    (cbv [processNonBlockingRequest ResultsStorage.new ResultsStorage.initialize
          thread_container_add modules_index create_directories
          forget_trace ResultsStorage.with_metadata storage_for storage_events
          world_with_storage
          try_catch scope_exit bind ret throw gets modify pure
          ResultsMutex.LockGuard ResultsMutex.exists_ ResultsMutex.add
          atomic_write_to_file log set_cache set_files set_directories
          sendPXPError sendProvisionalResponse send send_event];
     cbn [cache directories files trace snd fst negb app
          results_dir_ transaction_id_ module_ setResultsDir
          ResultsStorage.metadata_file ResultsStorage.action_metadata
          ResultsStorage.module ResultsStorage.action empty what]).

Lemma empty_after_prefix a s d : empty (String a s +:+ d) = false.
Proof. reflexivity. Qed.

Ltac destruct_exn e :=
  let d := fresh "description" in
  destruct e as [d|d|d|d|d|d|d|d|d|d|d|d|d|d|d|d].

(** processNonBlockingRequest once Results Storage has been set up: the
    thread is started and added, and the provisional response sent; or
    the failure is reported by a PXP error, whether or not the thread
    had been started. *)
Lemma dispatch_with_storage env this request m w :
  let request' := setResultsDir request (results_dir_of this request) in
  modules_ this !! module_ request = Some m ->
  (results_dir_ request' ∈ directories w
   \/ create_directories_error env (results_dir_ request') = None) ->
  atomic_write_error env (ResultsStorage.metadata_file (storage_for request'))
    = None ->
  processNonBlockingRequest env this request (forget_trace w)
  = match thread_error env with
    | None =>
        (match send_error env (ProvisionalResponse request') with
         | Some description => Throw (connection_error description)
         | None => Return tt
         end,
         world_with_storage request' w
           (storage_events request' w
            ++ [ThreadAdded (module_name m) request';
                send_event env (ProvisionalResponse request')]))
    | Some e =>
        let err_msg :=
          match e with
          | ResultsStorage_Error description =>
              "failed to initialize result files: " +:+ description
          | _ => "failed to start action task: " +:+ what e
          end in
        (match send_error env (PXPError request' err_msg) with
         | Some description => Throw (connection_error description)
         | None => Return tt
         end,
         world_with_storage request' w
           (storage_events request' w
            ++ (if thread_started env
                then [ThreadStarted (module_name m) request']
                else [])
            ++ [send_event env (PXPError request' err_msg)]))
    end.
Proof.
  intros request' Hm Hd Hw. subst request'. revert Hd Hw.
  run_dispatch. intros Hd Hw. rewrite Hm. run_dispatch.
  destruct (bool_decide (results_dir_of this request ∈ directories w)) eqn:Ed;
    run_dispatch.
  - rewrite Hw. run_dispatch.
    destruct (bool_decide (transaction_id_ request ∈ cache w)) eqn:Ec;
      run_dispatch; rewrite ?Ec; run_dispatch;
      (destruct (thread_error env) as [e|];
       [destruct_exn e; destruct (thread_started env)|]); run_dispatch;
      rewrite ?empty_after_prefix; run_dispatch;
      destruct (send_error env _); reflexivity.
  - destruct Hd as [Hd|Hd].
    { apply (bool_decide_eq_true_2 _) in Hd. congruence. }
    rewrite Hd. run_dispatch. rewrite Hw. run_dispatch.
    destruct (bool_decide (transaction_id_ request ∈ cache w)) eqn:Ec;
      run_dispatch; rewrite ?Ec; run_dispatch;
      (destruct (thread_error env) as [e|];
       [destruct_exn e; destruct (thread_started env)|]); run_dispatch;
      rewrite ?empty_after_prefix; run_dispatch;
      destruct (send_error env _); reflexivity.
Qed.

(** X18: when the results directory of a non-blocking request does not
    exist and cannot be created, processNonBlockingRequest hands one PXP
    error to the connector, failed to initialize result files followed by
    the description of the failure, and leaves the spool, the files and
    the mutex table as they were: no thread is started and no provisional
    response is sent. *)
Theorem dispatch_fails_without_results_directory
        env this request m w description :
  let request' := setResultsDir request (results_dir_of this request) in
  modules_ this !! module_ request = Some m ->
  results_dir_ request' ∉ directories w ->
  create_directories_error env (results_dir_ request') = Some description ->
  snd (processNonBlockingRequest env this request (forget_trace w))
  = {| cache := cache w; directories := directories w; files := files w;
       trace :=
         [send_event env
            (PXPError request'
               ("failed to initialize result files: "
                +:+ "failed to create results directory: " +:+ description))] |}.
Proof.
  intros request' Hm Hd Hc. subst request'. revert Hd Hc.
  run_dispatch. intros Hd Hc. apply (bool_decide_eq_false_2 _) in Hd.
  rewrite Hm. run_dispatch. rewrite Hd. run_dispatch. rewrite Hc.
  run_dispatch. rewrite ?empty_after_prefix. run_dispatch.
  destruct (send_error env _); reflexivity.
Qed.

Lemma dispatch_fails_without_results_directory_witness :
  snd (processNonBlockingRequest Fixtures.no_spool Fixtures.reverse_agent
         (Examples.reverse_request true) (forget_trace fresh_world))
  = {| cache := ∅; directories := ∅; files := ∅;
       trace :=
         [Sent (PXPError (Examples.reverse_request true)
                  ("failed to initialize result files: "
                   +:+ "failed to create results directory: "
                   +:+ "permission denied"))] |}.
Proof.
  apply (dispatch_fails_without_results_directory Fixtures.no_spool
           Fixtures.reverse_agent (Examples.reverse_request true)
           Fixtures.reverse_module fresh_world "permission denied").
  - reflexivity.
  - apply not_elem_of_empty.
  - reflexivity.
Defined.

(** X19: when Results Storage has been set up and the thread cannot be
    constructed (its constructor throws, so that no task is started),
    processNonBlockingRequest reports failed to start action task
    followed by the description, after the storage events; what the
    storage has set up stays behind: the entry of the transaction in the
    mutex table and the metadata file, which says that the action has not
    completed. *)
Theorem failed_thread_start_leaves_storage_behind env this request m w e :
  let request' := setResultsDir request (results_dir_of this request) in
  let w' := snd (processNonBlockingRequest env this request (forget_trace w)) in
  modules_ this !! module_ request = Some m ->
  (results_dir_ request' ∈ directories w
   \/ create_directories_error env (results_dir_ request') = None) ->
  atomic_write_error env (ResultsStorage.metadata_file (storage_for request'))
    = None ->
  thread_error env = Some e ->
  thread_started env = false ->
  (forall description, e <> ResultsStorage_Error description) ->
  trace w'
  = storage_events request' w
    ++ [send_event env
          (PXPError request' ("failed to start action task: " +:+ what e))]
  /\ transaction_id_ request ∈ cache w'
  /\ files w' !! ResultsStorage.metadata_file (storage_for request')
     = Some (initial_metadata request')
  /\ get_bool (initial_metadata request') "completed" = Return false.
Proof.
  intros request' w' Hm Hd Hw Ht Hs He. subst w'.
  rewrite (dispatch_with_storage env this request m w Hm Hd Hw), Ht, Hs.
  fold request'. cbn [snd world_with_storage trace cache files app].
  split; [|split; [|split]].
  - destruct_exn e; try reflexivity. by destruct (He description).
  - change (transaction_id_ request') with (transaction_id_ request).
    destruct (bool_decide (transaction_id_ request ∈ cache w)) eqn:Ec.
    + by apply bool_decide_eq_true_1 in Ec.
    + apply elem_of_union. left. by apply elem_of_singleton.
  - apply lookup_insert_eq.
  - unfold initial_metadata.
    destruct (negb (empty (params_txt_ request'))); reflexivity.
Qed.

Lemma failed_thread_start_leaves_storage_behind_witness :
  "t1" ∈ cache (snd (processNonBlockingRequest Fixtures.no_threads
                        Fixtures.reverse_agent (Examples.reverse_request true)
                        (forget_trace fresh_world))).
Proof.
  refine (proj1 (proj2 (failed_thread_start_leaves_storage_behind
                          Fixtures.no_threads Fixtures.reverse_agent
                          (Examples.reverse_request true)
                          Fixtures.reverse_module fresh_world
                          (std_exception "resource unavailable")
                          eq_refl (or_intror eq_refl) eq_refl eq_refl eq_refl
                          _))).
  intros description H. discriminate H.
Defined.

(** X20: a validated non-blocking request, when Results Storage can be
    set up, the thread started and the message sent, makes processRequest
    return after setting up the storage, adding the thread and handing
    the provisional response to the connector, in that order; the action
    itself is not executed by processRequest. *)
Theorem valid_non_blocking_request_gets_provisional_response
        ctor env this request_type parsed_chunks request m w :
  let request' := setResultsDir request (results_dir_of this request) in
  ctor request_type parsed_chunks = Return request ->
  validateRequestContent this request = Return tt ->
  modules_ this !! module_ request = Some m ->
  type_ request = NonBlocking ->
  (results_dir_ request' ∈ directories w
   \/ create_directories_error env (results_dir_ request') = None) ->
  atomic_write_error env (ResultsStorage.metadata_file (storage_for request'))
    = None ->
  thread_error env = None ->
  send_error env (ProvisionalResponse request') = None ->
  processRequest ctor env this request_type parsed_chunks (forget_trace w)
  = (Return tt,
     world_with_storage request' w
       (storage_events request' w
        ++ [ThreadAdded (module_name m) request';
            Sent (ProvisionalResponse request')])).
Proof.
  intros request' Hc Hv Hm Ht Hd Hw Hth Hs.
  cbv [processRequest try_catch bind ret throw pure]. rewrite Hc.
  cbv beta iota. rewrite Hv. cbv beta iota. rewrite Ht.
  rewrite (dispatch_with_storage env this request m w Hm Hd Hw), Hth.
  fold request'. unfold send_event. rewrite Hs. reflexivity.
Qed.

Lemma valid_non_blocking_request_gets_provisional_response_witness :
  exists request,
    handed_to_connector
      (trace (snd (processRequest ActionRequest_new Examples.calm
                     Fixtures.reverse_agent NonBlocking
                     (Examples.chunks_with (Examples.reverse_data true) [])
                     (forget_trace fresh_world))))
    = [ProvisionalResponse request].
Proof.
  eexists.
  rewrite (valid_non_blocking_request_gets_provisional_response
             ActionRequest_new Examples.calm Fixtures.reverse_agent NonBlocking
             (Examples.chunks_with (Examples.reverse_data true) [])
             _ Fixtures.reverse_module fresh_world
             eq_refl eq_refl eq_refl eq_refl (or_intror eq_refl) eq_refl
             eq_refl eq_refl).
  reflexivity.
Defined.

(** X27: when the input validator throws anything but a validation error
    (it throws a schema_not_found_error when the module registered no
    schema under the name of the action), validateRequestContent lets it
    through and processRequest does not catch it: the exception leaves
    processRequest, nothing is handed to the connector and nothing else is
    done; the requester gets no answer. *)
Theorem unexpected_validator_failure_is_not_answered
        ctor env this request_type parsed_chunks request m e w :
  ctor request_type parsed_chunks = Return request ->
  modules_ this !! module_ request = Some m ->
  hasAction m (action_ request) = true ->
  ~ (type m = Internal /\ type_ request = NonBlocking) ->
  validate (input_validator_ m) (params_ request) (action_ request) = Throw e ->
  (forall description, e <> validation_error description) ->
  (forall description, e <> RequestProcessor_Error description) ->
  (forall description, e <> ActionRequest_Error description) ->
  validateRequestContent this request = Throw e
  /\ processRequest ctor env this request_type parsed_chunks w = (Throw e, w).
Proof.
  intros Hc Hm Ha Hn Hv He1 He2 He3.
  assert (Hval : validateRequestContent this request = Throw e).
  { unfold validateRequestContent, modules_at. rewrite Hm. simpl.
    rewrite Ha. simpl.
    destruct (type m) eqn:Ht, (type_ request) eqn:Hr; simpl;
      try (exfalso; apply Hn; split; congruence);
      rewrite Hv; destruct_exn e; try reflexivity;
      by destruct (He1 description). }
  split; [exact Hval|].
  cbv [processRequest try_catch bind ret throw pure]. rewrite Hc.
  cbv beta iota. rewrite Hval. cbv beta iota.
  destruct_exn e; try reflexivity;
    first [by destruct (He2 description) | by destruct (He3 description)].
Qed.

Lemma unexpected_validator_failure_is_not_answered_witness :
  processRequest ActionRequest_new Examples.calm
    (Examples.processor [Ping.Ping; Fixtures.unchecked]) Blocking
    Fixtures.unchecked_chunks fresh_world
  = (Throw (schema_not_found_error "run"), fresh_world).
Proof.
  refine (proj2 (unexpected_validator_failure_is_not_answered
                   ActionRequest_new Examples.calm
                   (Examples.processor [Ping.Ping; Fixtures.unchecked])
                   Blocking Fixtures.unchecked_chunks _ Fixtures.unchecked
                   (schema_not_found_error "run") fresh_world
                   eq_refl eq_refl eq_refl _ eq_refl _ _ _));
    [intros [H _]; discriminate H
    |intros description H; discriminate H ..].
Defined.

(** X28: once a request has been constructed and validated, processRequest
    answers every failure of the dispatch itself: whatever the action, the
    spool, the file system and the thread library do, the only exception
    that can leave processRequest is a connection error, thrown by the
    connector when a message cannot be sent. *)
Theorem only_connection_errors_leave_processRequest
        ctor env this request_type parsed_chunks request w e :
  ctor request_type parsed_chunks = Return request ->
  validateRequestContent this request = Return tt ->
  fst (processRequest ctor env this request_type parsed_chunks w) = Throw e ->
  exists description, e = connection_error description.
Proof.
  intros Hc Hv.
  cbv [processRequest try_catch bind ret throw pure]. rewrite Hc.
  cbv beta iota. rewrite Hv. cbv beta iota.
  destruct (type_ request) eqn:Ht.
  - run_request.
    destruct (modules_ this !! module_ request) as [m|]; run_request.
    + destruct (executeAction m request) as [outcome|e']; run_request.
      * destruct (send_error env (BlockingResponse _ _)); run_request;
          try destruct (send_error env (PXPError _ _)); run_request;
          intros [=]; subst; eauto.
      * destruct (send_error env (PXPError _ _)); run_request;
          intros [=]; subst; eauto.
    + destruct (send_error env (PXPError _ _)); run_request;
        intros [=]; subst; eauto.
  - run_dispatch.
    destruct (modules_ this !! module_ request) as [m|]; run_dispatch.
    + destruct (bool_decide (results_dir_of this request ∈ directories w));
        run_dispatch;
        try (destruct (create_directories_error env _); run_dispatch);
        try (destruct (atomic_write_error env _) as [e'|]; [destruct_exn e'|];
             run_dispatch);
        try (destruct (bool_decide (transaction_id_ request ∈ cache w)) eqn:Ec;
             run_dispatch; rewrite ?Ec; run_dispatch);
        try (destruct (thread_error env) as [e'|];
             [destruct_exn e'; destruct (thread_started env)|];
             run_dispatch);
        rewrite ?empty_after_prefix; run_dispatch;
        (destruct (send_error env _); run_dispatch;
         try (destruct (send_error env _); run_dispatch);
         cbn [fst]; intros [=]; subst; eauto).
    + rewrite ?empty_after_prefix; run_dispatch.
      destruct (send_error env _); run_dispatch;
        try (destruct (send_error env _); run_dispatch);
        cbn [fst]; intros [=]; subst; eauto.
Qed.

Lemma only_connection_errors_leave_processRequest_witness :
  fst (processRequest ActionRequest_new Fixtures.offline Examples.agent
         Blocking Examples.ping_chunks fresh_world)
  = Throw (connection_error "connection closed")
  /\ exists description,
       connection_error "connection closed" = connection_error description.
Proof.
  split; [reflexivity|].
  apply (only_connection_errors_leave_processRequest ActionRequest_new
           Fixtures.offline Examples.agent Blocking Examples.ping_chunks
           {| type_ := Blocking; id_ := "req-1"; sender_ := "S";
              transaction_id_ := "t1"; module_ := "ping"; action_ := "ping";
              notify_outcome_ := false;
              parsed_chunks_ := Examples.ping_chunks;
              params_ := [("sender_timestamp", JString "0")];
              params_txt_ :=
                toString (JObject [("sender_timestamp", JString "0")]);
              results_dir_ := "" |}
           fresh_world).
  - reflexivity.
  - reflexivity.
  - reflexivity.
Defined.

(** ** Loading the modules *)

Section loading_properties.

Variable ExternalModule_new : string -> option JsonContainer -> result Module_.
Variable validateConfiguration : Module_ -> result unit.
Variable Echo : Module_.
Variable Status : Module_.

Lemma empty_iff s : empty s = true <-> s = "".
Proof. destruct s; simpl; split; congruence. Qed.

Lemma load_entries_step cfg f rest modules_ :
  load_entries ExternalModule_new validateConfiguration cfg (f :: rest) modules_
  = if negb (is_directory f) then
      match canonical f with
      | Throw e => Throw e
      | Return f_p =>
          if empty (extension f_p) then
            match load_module ExternalModule_new validateConfiguration cfg f_p
            with
            | Return e_m =>
                load_entries ExternalModule_new validateConfiguration cfg rest
                  (<[module_name e_m := e_m]> modules_)
            | Throw _ =>
                load_entries ExternalModule_new validateConfiguration cfg rest
                  modules_
            end
          else
            load_entries ExternalModule_new validateConfiguration cfg rest
              modules_
      end
    else
      load_entries ExternalModule_new validateConfiguration cfg rest modules_.
Proof. simpl. destruct (is_directory f), (canonical f); reflexivity. Qed.

Ltac step_entry f :=
  rewrite load_entries_step;
  destruct (is_directory f) eqn:?; simpl;
  [|destruct (canonical f) as [?f_p|] eqn:?;
    [destruct (empty (extension f_p)) eqn:?;
     [destruct (load_module _ _ _ f_p) as [?e_m|] eqn:?|]|]].

(** A name that is registered stays registered while the directory is
    read (possibly with another module). *)
Lemma load_entries_keeps_names cfg entries modules_ modules' :
  load_entries ExternalModule_new validateConfiguration cfg entries modules_
    = Return modules' ->
  forall name, is_Some (modules_ !! name) -> is_Some (modules' !! name).
Proof.
  revert modules_. induction entries as [|f rest IH]; intros modules_ H name Hn.
  - simpl in H. by injection H as <-.
  - revert H. step_entry f; intros H; try discriminate H;
      try (by eapply IH).
    eapply IH; [exact H|].
    destruct (decide (module_name e_m = name)) as [<-|Hne].
    + rewrite lookup_insert_eq. eauto.
    + by rewrite lookup_insert_ne.
Qed.

Lemma load_entries_app cfg l1 l2 modules_ :
  load_entries ExternalModule_new validateConfiguration cfg (l1 ++ l2) modules_
  = match load_entries ExternalModule_new validateConfiguration cfg l1 modules_
    with
    | Return modules' =>
        load_entries ExternalModule_new validateConfiguration cfg l2 modules'
    | Throw e => Throw e
    end.
Proof.
  revert modules_. induction l1 as [|f rest IH]; intros modules_; [done|].
  change ((f :: rest) ++ l2) with (f :: (rest ++ l2)).
  rewrite !load_entries_step.
  destruct (is_directory f); simpl; [apply IH|].
  destruct (canonical f) as [f_p|]; [|done].
  destruct (empty (extension f_p)); [|apply IH].
  destruct (load_module ExternalModule_new validateConfiguration cfg f_p);
    apply IH.
Qed.

(** An entry of the table that no file of the directory registers under
    its name is kept. *)
Lemma load_entries_keeps cfg entries modules_ modules' name m :
  load_entries ExternalModule_new validateConfiguration cfg entries modules_
    = Return modules' ->
  modules_ !! name = Some m ->
  (forall f' m',
     f' ∈ entries ->
     registers ExternalModule_new validateConfiguration cfg f' m' ->
     module_name m' <> name) ->
  modules' !! name = Some m.
Proof.
  revert modules_. induction entries as [|f rest IH]; intros modules_ H Hm Hn.
  - simpl in H. by injection H as <-.
  - assert (Hrest : forall f' m',
              f' ∈ rest ->
              registers ExternalModule_new validateConfiguration cfg f' m' ->
              module_name m' <> name).
    { intros f' m' Hf'. apply Hn. by apply elem_of_cons; right. }
    revert H. step_entry f; intros H; try discriminate H;
      try (by eapply IH).
    eapply IH; [exact H| |done].
    rewrite lookup_insert_ne; [done|].
    apply (Hn f e_m); [by apply elem_of_cons; left|].
    split; [done|]. exists f_p. repeat split; try done. by apply empty_iff.
Qed.

(** X21: every module in the table after loadExternalModulesFrom was
    either in it before, or was built from a file of the directory: an
    entry that is not a directory, whose canonical path has no extension,
    and for which the constructor of ExternalModule (and, when the module
    has a configuration, validateConfiguration) returned; and it is
    registered under its own module name. *)
Theorem registered_modules_come_from_loaded_files
        cfg entries modules_ modules' :
  load_entries ExternalModule_new validateConfiguration cfg entries modules_
    = Return modules' ->
  forall name m,
    modules' !! name = Some m ->
    modules_ !! name = Some m
    \/ exists f,
         f ∈ entries
         /\ registers ExternalModule_new validateConfiguration cfg f m
         /\ module_name m = name.
Proof.
  revert modules_.
  induction entries as [|f rest IH]; intros modules_ H name m Hm.
  - simpl in H. injection H as <-. by left.
  - revert H. step_entry f; intros H; try discriminate H.
    + destruct (IH _ H _ _ Hm) as [?|(f' & ? & ? & ?)]; [by left|].
      right. exists f'. split; [by apply elem_of_cons; right|done].
    + destruct (IH _ H _ _ Hm) as [Hl|(f' & ? & ? & ?)].
      * destruct (decide (module_name e_m = name)) as [Heq|Hne].
        -- rewrite <- Heq, lookup_insert_eq in Hl. injection Hl as <-.
           right. exists f. split; [by apply elem_of_cons; left|].
           split; [|done]. split; [done|]. exists f_p.
           repeat split; try done. by apply empty_iff.
        -- rewrite lookup_insert_ne in Hl by done. by left.
      * right. exists f'. split; [by apply elem_of_cons; right|done].
    + destruct (IH _ H _ _ Hm) as [?|(f' & ? & ? & ?)]; [by left|].
      right. exists f'. split; [by apply elem_of_cons; right|done].
    + destruct (IH _ H _ _ Hm) as [?|(f' & ? & ? & ?)]; [by left|].
      right. exists f'. split; [by apply elem_of_cons; right|done].
Qed.

(** X22: loadExternalModulesFrom does not fail because a module fails to
    load: whatever the constructor of ExternalModule and
    validateConfiguration throw, the loop over the directory returns,
    provided that fs::canonical (which is called outside of the try
    block) returns for every entry that is not a directory. *)
Theorem loading_survives_broken_modules cfg entries modules_ :
  (forall f, f ∈ entries -> is_directory f = false ->
             exists f_p, canonical f = Return f_p) ->
  exists modules',
    load_entries ExternalModule_new validateConfiguration cfg entries modules_
    = Return modules'.
Proof.
  revert modules_. induction entries as [|f rest IH]; intros modules_ Hc.
  - simpl. eauto.
  - assert (Hrest : forall f', f' ∈ rest -> is_directory f' = false ->
                               exists f_p, canonical f' = Return f_p).
    { intros f' Hf'. apply Hc. by apply elem_of_cons; right. }
    step_entry f; try (by apply IH).
    destruct (Hc f) as [f_p Hf]; [by apply elem_of_cons; left|done|].
    congruence.
Qed.

(** X23: a module built from a file of the directory is in the table at
    the end, under its module name, unless a later file registers a module
    of the same name; whatever was registered under that name before,
    an internal module included, is replaced. *)
Theorem later_module_replaces_earlier
        cfg before f after_ modules_ modules' m :
  load_entries ExternalModule_new validateConfiguration cfg
    (before ++ f :: after_) modules_ = Return modules' ->
  registers ExternalModule_new validateConfiguration cfg f m ->
  (forall f' m',
     f' ∈ after_ ->
     registers ExternalModule_new validateConfiguration cfg f' m' ->
     module_name m' <> module_name m) ->
  modules' !! module_name m = Some m.
Proof.
  intros H (Hd & f_p & Hc & He & Hl) Hafter.
  rewrite load_entries_app in H.
  destruct (load_entries ExternalModule_new validateConfiguration cfg before
              modules_) as [modules1|]; [|discriminate].
  rewrite load_entries_step, Hd, Hc, He in H. simpl in H. rewrite Hl in H.
  eapply load_entries_keeps; [exact H| |exact Hafter].
  apply lookup_insert_eq.
Qed.

(** X24: a Request Processor that has been constructed has the spool path
    of the configuration and a module under each of the names echo, ping
    and status; when no modules directory is configured, or the
    configured one is not a directory, these are the internal modules and
    there is no other module. *)
Theorem internal_modules_are_always_registered
        spool_dir modules_dir dir cfg this :
  RequestProcessor_new ExternalModule_new validateConfiguration Echo Status
    spool_dir modules_dir dir cfg = Return this ->
  spool_path_ this = spool_dir
  /\ (forall name, name ∈ ["echo"; "ping"; "status"] ->
                   is_Some (modules_ this !! name))
  /\ (modules_dir = "" \/ exists_as_directory dir = false ->
      modules_ this !! "ping" = Some Ping.Ping
      /\ modules_ this !! "echo" = Some Echo
      /\ modules_ this !! "status" = Some Status
      /\ forall name, is_Some (modules_ this !! name) ->
                      name ∈ ["echo"; "ping"; "status"]).
Proof.
  unfold RequestProcessor_new. intros H.
  assert (Hint : forall name, name ∈ ["echo"; "ping"; "status"] ->
            is_Some (loadInternalModules Echo Status ∅ !! name)).
  { intros name Hn. repeat (apply elem_of_cons in Hn as [->|Hn]; [by eexists|]).
    by apply elem_of_nil in Hn. }
  assert (Hexact : forall name,
            is_Some (loadInternalModules Echo Status ∅ !! name) ->
            name ∈ ["echo"; "ping"; "status"]).
  { intros name [m Hm]. unfold loadInternalModules in Hm.
    rewrite !elem_of_cons.
    destruct (decide (name = "status")) as [->|?]; [by auto|].
    rewrite lookup_insert_ne in Hm by done.
    destruct (decide (name = "ping")) as [->|?]; [by auto|].
    rewrite lookup_insert_ne in Hm by done.
    destruct (decide (name = "echo")) as [->|?]; [by auto|].
    rewrite lookup_insert_ne in Hm by done. by rewrite lookup_empty in Hm. }
  destruct (empty modules_dir) eqn:Em; simpl in H.
  - injection H as <-. simpl. split; [done|]. split; [done|].
    intros _. repeat split; try done.
  - unfold loadExternalModulesFrom in H.
    destruct (exists_as_directory dir) eqn:Ed; simpl in H.
    + destruct (load_entries _ _ cfg (entries dir) _) as [ms|] eqn:Hl;
        simpl in H; [|discriminate].
      injection H as <-. simpl. split; [done|]. split.
      * intros name Hn.
        eapply load_entries_keeps_names; [exact Hl|by apply Hint].
      * intros [->|?]; [discriminate Em|discriminate].
    + injection H as <-. simpl. split; [done|]. split; [done|].
      intros _. repeat split; try done.
Qed.

End loading_properties.

Lemma registered_modules_come_from_loaded_files_witness :
  (∅ : gmap string Module_) !! "reverse" = Some Fixtures.reverse_module
  \/ exists f,
       f ∈ entries Fixtures.modules_directory
       /\ registers Fixtures.ExternalModule_new Fixtures.validateConfiguration
            ∅ f Fixtures.reverse_module
       /\ module_name Fixtures.reverse_module = "reverse".
Proof.
  apply (registered_modules_come_from_loaded_files
           Fixtures.ExternalModule_new Fixtures.validateConfiguration
           ∅ (entries Fixtures.modules_directory) ∅
           (<["reverse" := Fixtures.reverse_module]> ∅)).
  - reflexivity.
  - apply lookup_insert_eq.
Defined.

Lemma loading_survives_broken_modules_witness :
  exists modules',
    load_entries Fixtures.ExternalModule_new Fixtures.validateConfiguration
      ∅ (entries Fixtures.modules_directory) ∅ = Return modules'.
Proof.
  apply (loading_survives_broken_modules Fixtures.ExternalModule_new
           Fixtures.validateConfiguration).
  intros f Hf _.
  repeat (apply elem_of_cons in Hf as [->|Hf]; [by eexists|]).
  by apply elem_of_nil in Hf.
Defined.

Lemma later_module_replaces_earlier_witness :
  (<["reverse" := Fixtures.reverse_module]>
     (<["reverse" := Fixtures.Echo]> (∅ : gmap string Module_)))
    !! "reverse"
  = Some Fixtures.reverse_module.
Proof.
  refine (later_module_replaces_earlier Fixtures.ExternalModule_new
            Fixtures.validateConfiguration ∅
            [ {| is_directory := true;
                 canonical := Return {| path_string := "/modules/lib";
                                        extension := ""; stem := "lib" |} |} ]
            (Fixtures.file "/modules/reverse" "" "reverse")
            [ Fixtures.file "/modules/notes.txt" ".txt" "notes";
              Fixtures.file "/modules/broken" "" "broken" ]
            (<["reverse" := Fixtures.Echo]> ∅)
            (<["reverse" := Fixtures.reverse_module]>
               (<["reverse" := Fixtures.Echo]> ∅))
            Fixtures.reverse_module _ _ _).
  - reflexivity.
  - split; [reflexivity|]. eexists. repeat split; reflexivity.
  - intros f' m' Hf (_ & f_p & Hc & He & Hl).
    repeat (apply elem_of_cons in Hf as [->|Hf];
            [simpl in Hc; injection Hc as <-; discriminate|]).
    by apply elem_of_nil in Hf.
Defined.

Lemma internal_modules_are_always_registered_witness :
  is_Some
    (<["reverse" := Fixtures.reverse_module]>
       (loadInternalModules Fixtures.Echo Fixtures.Status ∅) !! "ping").
Proof.
  refine (proj1 (proj2 (internal_modules_are_always_registered
                          Fixtures.ExternalModule_new
                          Fixtures.validateConfiguration
                          Fixtures.Echo Fixtures.Status
                          "/spool" "/modules" Fixtures.modules_directory ∅
                          {| spool_path_ := "/spool";
                             modules_ := <["reverse" := Fixtures.reverse_module]>
                                           (loadInternalModules Fixtures.Echo
                                              Fixtures.Status ∅) |}
                          eq_refl))
                "ping" _).
  apply elem_of_cons. right. apply elem_of_cons. by left.
Defined.

(** ** The names of the configuration files and the log of the modules *)

Lemma append_cons a (s t : string) : String a s +:+ t = String a (s +:+ t).
Proof. reflexivity. Qed.

Lemma append_assoc (s1 s2 s3 : string) : (s1 +:+ s2) +:+ s3 = s1 +:+ s2 +:+ s3.
Proof.
  induction s1 as [|a s1 IH]; [done|]. by rewrite !append_cons, IH.
Qed.

Lemma append_empty_r (s : string) : s +:+ "" = s.
Proof. induction s as [|a s IH]; [done|]. by rewrite append_cons, IH. Qed.

Lemma prefix_split p s :
  String.prefix p s = true -> exists rest, s = p +:+ rest.
Proof.
  revert s. induction p as [|a p IH]; intros s H.
  - exists s. reflexivity.
  - apply prefix_correct in H. destruct s as [|b s]; [discriminate H|].
    simpl in H. injection H as -> H. apply prefix_correct in H.
    destruct (IH s H) as [rest ->]. exists rest. reflexivity.
Qed.

Lemma index_cons p b s :
  String.index 0 p (String b s)
  = if String.prefix p (String b s) then Some 0%nat
    else match String.index 0 p s with
         | Some n => Some (S n)
         | None => None
         end.
Proof. reflexivity. Qed.

Lemma substring_cons n b s :
  String.substring 0 (S n) (String b s) = String b (String.substring 0 n s).
Proof. reflexivity. Qed.

Lemma index_split p s n :
  String.index 0 p s = Some n ->
  exists rest, s = String.substring 0 n s +:+ p +:+ rest.
Proof.
  revert n. induction s as [|b s IH]; intros n H.
  - simpl in H. destruct p; [|discriminate]. injection H as <-. by exists "".
  - rewrite index_cons in H.
    destruct (String.prefix p (String b s)) eqn:Hp.
    + injection H as <-. by apply prefix_split.
    + destruct (String.index 0 p s) as [k|]; [|discriminate].
      injection H as <-. destruct (IH k eq_refl) as [rest Hrest].
      exists rest. rewrite substring_cons, append_cons. by rewrite <- Hrest.
Qed.

(** X25: the name under which loadModulesConfiguration stores a
    configuration is the stem of the file up to an occurrence of .cfg
    (the file stem is that name, then .cfg, then whatever follows), and
    the whole stem when .cfg does not occur in it. *)
Theorem config_name_is_the_stem_up_to_cfg file_name :
  match find file_name ".cfg" with
  | None => config_module_name file_name = file_name
  | Some _ =>
      exists rest,
        file_name = config_module_name file_name +:+ ".cfg" +:+ rest
  end.
Proof.
  unfold config_module_name, substr_to.
  destruct (find file_name ".cfg") as [n|] eqn:Hf; [|done].
  by apply index_split.
Qed.

Lemma add_actions_after_first txt actions_list actions :
  empty actions_list = false ->
  foldl add_action (txt, actions_list) actions
  = (txt, actions_list +:+ String.concat "" (map (fun a => ", " +:+ a) actions)).
Proof.
  revert actions_list. induction actions as [|a rest IH]; intros l Hl.
  - simpl. by rewrite append_empty_r.
  - cbn [foldl add_action]. rewrite Hl.
    rewrite IH.
    + f_equal. rewrite !append_assoc. f_equal.
      destruct rest as [|b rest]; simpl; [by rewrite append_empty_r|done].
    + destruct l; [discriminate Hl|reflexivity].
Qed.

(** X26: the line logLoadedModules writes for a module says found no
    action and lists nothing when the module has no action; otherwise it
    says action and lists every action of the module, in order, after a
    colon and separated by commas. *)
Theorem log_line_lists_every_action actions :
  loaded_actions_text actions
  = match actions with
    | [] => ("found no action", "")
    | first :: rest =>
        ("action",
         ": " +:+ first
         +:+ String.concat "" (map (fun a => ", " +:+ a) rest))
    end.
Proof.
  unfold loaded_actions_text. destruct actions as [|a rest]; [done|].
  cbn [foldl add_action empty].
  rewrite add_actions_after_first by reflexivity.
  by rewrite append_assoc.
Qed.
